(** * Hybrid-cloud service delegation: [sentry.services.hybrid_cloud]

    A shallow embedding of [DelegatedBySiloMode], [CreateStubFromBase] and
    [stubbed] from [src/sentry/services/hybrid_cloud/__init__.py], with the
    properties of the dispatcher and of the synthesized test stubs.

    Python objects are values that carry their identity ([oid]); the
    interpreter state is threaded explicitly through a state-and-exception
    monad; the dictionary [self._singleton] is a [gmap].  The runs are
    those of one thread: [self._lock] is not modelled. *)

From stdpp Require Import gmap strings list fin_maps.

Open Scope string_scope.
Open Scope list_scope.

(** ** Silo modes *)

(** Modelled from the spec: the [SiloMode] enumeration of [sentry.silo] is
    not among the sources; the spec names the partitions MONOLITH, CONTROL
    and REGION. *)
Inductive SiloMode := MONOLITH | CONTROL | REGION.

#[global] Instance SiloMode_eq_dec : EqDecision SiloMode.
Proof. solve_decision. Defined.

Definition SiloMode_to_nat (m : SiloMode) : nat :=
  match m with MONOLITH => 0 | CONTROL => 1 | REGION => 2 end.

Definition SiloMode_of_nat (n : nat) : option SiloMode :=
  match n with
  | 0 => Some MONOLITH
  | 1 => Some CONTROL
  | 2 => Some REGION
  | _ => None
  end.

#[global] Instance SiloMode_countable : Countable SiloMode.
Proof.
  apply (inj_countable SiloMode_to_nat SiloMode_of_nat).
  intros []; reflexivity.
Defined.

(** ** Service instances *)

(** An instance of a service class.  [Real] is a concrete backing
    implementation: [truthy] is the value of [bool(instance)] (true unless
    the class defines [__bool__] or [__len__]), [close_raises] tells whether
    its [close()] raises.  [StubInst] is an instance of a class made by
    [CreateStubFromBase(_, target)]: its only field is [backing_service];
    its [truthy] is what [bool(instance)] gives with the [__bool__] or
    [__len__] the stub class inherits from its base (true when the base
    has neither). *)
Inductive Inst :=
| Real (oid : nat) (truthy : bool) (close_raises : bool)
| StubInst (oid : nat) (truthy : bool) (target : SiloMode)
           (backing_service : Inst).

#[global] Instance Inst_eq_dec : EqDecision Inst.
Proof. solve_decision. Defined.

Definition oid_of (i : Inst) : nat :=
  match i with Real n _ _ => n | StubInst n _ _ _ => n end.

(** [bool(instance)] *)
Definition truthy (i : Inst) : bool :=
  match i with Real _ t _ => t | StubInst _ t _ _ => t end.

(** The identities of an instance and of everything it wraps. *)
Fixpoint oids (i : Inst) : list nat :=
  match i with
  | Real n _ _ => [n]
  | StubInst n _ _ b => n :: oids b
  end.

(** ** Exceptions, events, state *)

Inductive Exn :=
| KeyError_NoImplementation (mode : SiloMode)
      (* KeyError(f"No implementation found for {cur_mode}.") *)
| CloseFailed (oid : nat)          (* raised by the close() of a backing instance *)
| TypeError                        (* inspect.getcallargs: arguments do not bind *)
| AttributeError                   (* getattr: the object has no such attribute *)
| IndexError                       (* base.__bases__[0] on a class without bases *)
| UserError (tag : nat).           (* any other exception of backing or test code *)

#[global] Instance Exn_eq_dec : EqDecision Exn.
Proof. solve_decision. Defined.

(** What an observer of the run can see. *)
Inductive Event :=
| EvConstruct (mode : SiloMode) (oid : nat)
      (* the constructor registered for [mode] was called and made [oid] *)
| EvClose (oid : nat)              (* close() of instance [oid] was entered *)
| EvCb (oid : nat) (name : string) (* hc_test_stub.cb(backing, name, ...) ran *)
| EvAuthEnter (ctx : nat)          (* auth_context.applied_to_request() entered *)
| EvAuthExit (ctx : nat)
| EvCall (oid : nat) (name : string) (mode : SiloMode).
      (* a method body of real instance [oid] ran and saw current mode [mode] *)

#[global] Instance Event_eq_dec : EqDecision Event.
Proof. solve_decision. Defined.

(** A constructor of the mapping handed to [DelegatedBySiloMode]: a class
    (or lambda) that builds a fresh concrete implementation, or
    [stubbed(f, mode)], with the truth value of the stub instances it
    makes.  Being a function or a class, a constructor itself
    evaluates as true in the test [if con := ...]. *)
Inductive Factory :=
| MkReal (truthy : bool) (close_raises : bool)
| Stubbed (f : Factory) (mode : SiloMode) (stub_truthy : bool).

(** The thread-local test hook [hc_test_stub.cb]: it observes the call and
    returns, or raises. *)
Inductive Callback := CbObserve | CbRaise (e : Exn).

Record Dispatcher := mkDispatcher {
  _constructors : gmap SiloMode Factory;
  _singleton : gmap SiloMode (option Inst)
}.

Record State := mkState {
  disp : Dispatcher;                       (* the dispatcher object [self] *)
  next_oid : nat;                          (* identity of the next object *)
  trace : list Event;
  process_mode : SiloMode;                 (* the process-level silo mode *)
  single_process_mode : option SiloMode;   (* the scoped override of it *)
  hc_test_stub_cb : option Callback
}.

Definition set_disp (d : Dispatcher) (s : State) : State :=
  mkState d (next_oid s) (trace s) (process_mode s) (single_process_mode s)
          (hc_test_stub_cb s).

Definition set_singleton (m : gmap SiloMode (option Inst)) (s : State) : State :=
  set_disp (mkDispatcher (_constructors (disp s)) m) s.

Definition set_single_process_mode (o : option SiloMode) (s : State) : State :=
  mkState (disp s) (next_oid s) (trace s) (process_mode s) o (hc_test_stub_cb s).

Definition emit (e : Event) (s : State) : State :=
  mkState (disp s) (next_oid s) (trace s ++ [e]) (process_mode s)
          (single_process_mode s) (hc_test_stub_cb s).

Definition bump_oid (s : State) : State :=
  mkState (disp s) (S (next_oid s)) (trace s) (process_mode s)
          (single_process_mode s) (hc_test_stub_cb s).

(** ** The state-and-exception monad *)

Inductive Res (A : Type) :=
| Ok (a : A)
| Raise (e : Exn).
Arguments Ok {A} a.
Arguments Raise {A} e.

Definition M (A : Type) : Type := State -> Res A * State.

Definition ret {A} (a : A) : M A := fun s => (Ok a, s).
Definition raise {A} (e : Exn) : M A := fun s => (Raise e, s).
Definition bind {A B} (c : M A) (k : A -> M B) : M B :=
  fun s => match c s with
           | (Ok a, s1) => k a s1
           | (Raise e, s1) => (Raise e, s1)
           end.
Definition get : M State := fun s => (Ok s, s).
Definition modify (f : State -> State) : M unit := fun s => (Ok tt, f s).

Notation "x <- c ;; k" := (bind c (fun x => k))
  (at level 100, c at next level, right associativity).
Notation "c ;;; k" := (bind c (fun _ => k))
  (at level 100, right associativity).

(** [try: body finally: fin].  An exception of [fin] replaces the outcome
    of [body]. *)
Definition try_finally {A} (body : M A) (fin : M unit) : M A :=
  fun s => match body s with
           | (r, s1) => match fin s1 with
                        | (Ok _, s2) => (r, s2)
                        | (Raise e, s2) => (Raise e, s2)
                        end
           end.

(** [for x in xs: f(x)] *)
Fixpoint for_each {A} (f : A -> M unit) (xs : list A) : M unit :=
  match xs with
  | [] => ret tt
  | x :: rest => f x ;;; for_each f rest
  end.

(** ** The silo-mode registry *)

(** Modelled from the spec: [SiloMode.get_current_mode] of [sentry.silo] is
    not among the sources; the current mode is the process-wide mode unless
    a scoped override is active. *)
Definition get_current_mode (s : State) : SiloMode :=
  default (process_mode s) (single_process_mode s).

(** Modelled from the spec: [SiloMode.enter_single_process_silo_context],
    a scoped acquisition that makes [mode] the current mode and restores the
    prior override on exit, on every path. *)
Definition enter_single_process_silo_context {A} (mode : SiloMode) (body : M A) : M A :=
  old <- (s <- get ;; ret (single_process_mode s)) ;;
  modify (set_single_process_mode (Some mode)) ;;;
  try_finally body (modify (set_single_process_mode old)).

(** Modelled from the spec: [SiloMode.exit_single_process_silo_context],
    the scoped acquisition that suspends the override and restores it on
    exit, on every path. *)
Definition exit_single_process_silo_context {A} (body : M A) : M A :=
  old <- (s <- get ;; ret (single_process_mode s)) ;;
  modify (set_single_process_mode None) ;;;
  try_finally body (modify (set_single_process_mode old)).

(** ** Instances: close and construction *)

(** [instance.close()].  The stub's [close] is
    [self.backing_service.close()]. *)
Fixpoint inst_close (i : Inst) : M unit :=
  match i with
  | Real n _ raises =>
      modify (emit (EvClose n)) ;;;
      if raises then raise (CloseFailed n) else ret tt
  | StubInst n _ _ b =>
      modify (emit (EvClose n)) ;;;
      inst_close b
  end.

(** The events of [inst_close i], and whether it returns. *)
Fixpoint close_events (i : Inst) : list Event :=
  match i with
  | Real n _ _ => [EvClose n]
  | StubInst n _ _ b => EvClose n :: close_events b
  end.

Fixpoint close_returns (i : Inst) : bool :=
  match i with
  | Real _ _ raises => negb raises
  | StubInst _ _ _ b => close_returns b
  end.

Definition fresh_oid : M nat :=
  s <- get ;; modify bump_oid ;;; ret (next_oid s).

(** Calling a constructor.  [stubbed(f, mode)] is
    [backing = f(); CreateStubFromBase(type(backing), mode)(backing)]. *)
Fixpoint run_factory (f : Factory) : M Inst :=
  match f with
  | MkReal t r => n <- fresh_oid ;; ret (Real n t r)
  | Stubbed g mode t =>
      backing <- run_factory g ;;
      n <- fresh_oid ;;
      ret (StubInst n t mode backing)
  end.

(** ** DelegatedBySiloMode *)

(** [dict.get(key, None)] on [self._singleton], whose values may be
    [None]. *)
Definition dict_get (m : gmap SiloMode (option Inst)) (k : SiloMode) : option Inst :=
  default None (m !! k).

(** The value of a walrus test [if x := e]: the branch is taken when [e] is
    neither [None] nor falsy. *)
Definition if_truthy (o : option Inst) : option Inst :=
  match o with
  | Some i => if truthy i then Some i else None
  | None => None
  end.

(** [DelegatedBySiloMode.__init__(self, mapping)] *)
Definition __init__ (mapping : gmap SiloMode Factory) : M unit :=
  modify (set_disp (mkDispatcher mapping ∅)).

(** [DelegatedBySiloMode.close(self, mode=None)].  The map is updated
    first, the collected instances are closed afterwards; an exception of
    one [close()] ends the loop.  With [mode=None] the instances come in
    the order of [values()], which a [gmap] lists by key and not by
    insertion; no statement below depends on that order. *)
Definition close (mode : option SiloMode) : M unit :=
  to_close <- (s <- get ;;
    match mode with
    | None =>
        let to_close :=
          omap (fun kv => snd kv) (map_to_list (_singleton (disp s))) in
        modify (set_singleton ∅) ;;;
        ret to_close
    | Some mode =>
        let existing := dict_get (_singleton (disp s)) mode in
        let to_close :=
          match if_truthy existing with Some e => [e] | None => [] end in
        modify (set_singleton (<[mode := None]> (_singleton (disp s)))) ;;;
        ret to_close
    end) ;;
  for_each inst_close to_close.

(** The outcome of [getattr(impl, item)] on a backing instance: whatever
    that attribute access yields is handed to the caller unchanged. *)
Inductive Attr := AttrOf (impl : Inst) (item : string).

(** [DelegatedBySiloMode.__getattr__(self, item)]: what an attribute access
    on the dispatcher yields for a name the dispatcher does not define. *)
Definition __getattr__ (item : string) : M Attr :=
  s <- get ;;
  let cur_mode := get_current_mode s in
  match if_truthy (dict_get (_singleton (disp s)) cur_mode) with
  | Some impl => ret (AttrOf impl item)
  | None =>
      match _constructors (disp s) !! cur_mode with
      | Some con =>
          close (Some cur_mode) ;;;
          inst <- run_factory con ;;
          modify (emit (EvConstruct cur_mode (oid_of inst))) ;;;
          s1 <- get ;;
          modify (set_singleton (<[cur_mode := Some inst]> (_singleton (disp s1)))) ;;;
          ret (AttrOf inst item)
      | None => raise (KeyError_NoImplementation cur_mode)
      end
  end.

(** [with self.with_replacement(service, silo_mode): body] *)
Definition with_replacement {A} (service : option Inst) (silo_mode : SiloMode)
    (body : M A) : M A :=
  s <- get ;;
  let prev := dict_get (_singleton (disp s)) silo_mode in
  modify (set_singleton (<[silo_mode := service]> (_singleton (disp s)))) ;;;
  try_finally body
    (close (Some silo_mode) ;;;
     s1 <- get ;;
     modify (set_singleton (<[silo_mode := prev]> (_singleton (disp s1))))).

(** [for item in items: getattr(dispatcher, item)], collecting what each
    access yields. *)
Fixpoint calls (items : list string) : M (list Attr) :=
  match items with
  | [] => ret []
  | item :: rest =>
      a <- __getattr__ item ;;
      r <- calls rest ;;
      ret (a :: r)
  end.

(** The body of a [with] block that makes the accesses [items] and then
    either falls off its end or raises [exn]. *)
Definition scope_body (items : list string) (exn : option Exn) : M (list Attr) :=
  r <- calls items ;;
  match exn with
  | Some e => raise e
  | None => ret r
  end.

(** ** Pure views used in the statements *)

Definition set_next_oid (n : nat) (s : State) : State :=
  mkState (disp s) n (trace s) (process_mode s) (single_process_mode s)
          (hc_test_stub_cb s).

Definition emit_all (evs : list Event) (s : State) : State :=
  mkState (disp s) (next_oid s) (trace s ++ evs) (process_mode s)
          (single_process_mode s) (hc_test_stub_cb s).

(** The instance a constructor makes when the next free identity is [n],
    and the next free identity afterwards. *)
Fixpoint build (f : Factory) (n : nat) : Inst * nat :=
  match f with
  | MkReal t r => (Real n t r, S n)
  | Stubbed g mode t =>
      let '(backing, n1) := build g n in
      (StubInst n1 t mode backing, S n1)
  end.

Definition factory_truthy (f : Factory) : bool :=
  match f with MkReal t _ => t | Stubbed _ _ t => t end.

(** How often [close()] of instance [n] was entered in a run. *)
Definition close_count (n : nat) (evs : list Event) : nat :=
  length (List.filter (fun e => bool_decide (e = EvClose n)) evs).

Definition is_construct (e : Event) : bool :=
  match e with EvConstruct _ _ => true | _ => false end.

(** How often a constructor was called in a run. *)
Definition construct_count (evs : list Event) : nat :=
  length (List.filter is_construct evs).

(** The state after a dispatch that had to construct: the constructor
    took its identities, the call was recorded, the slot was filled. *)
Definition constructed (con : Factory) (s : State) : State :=
  let cur_mode := get_current_mode s in
  let '(inst, n) := build con (next_oid s) in
  set_singleton (<[cur_mode := Some inst]> (_singleton (disp s)))
    (emit (EvConstruct cur_mode (oid_of inst)) (set_next_oid n s)).

(** ** States of the examples *)

(** A fresh process in MONOLITH mode: a dispatcher without constructors,
    no object made yet, no test hook. *)
Definition state0 : State :=
  mkState (mkDispatcher ∅ ∅) 0 [] MONOLITH None None.

(** A dispatcher state, without constructors, whose MONOLITH slot holds
    instance 0; [raises] tells whether that instance's [close()] raises.
    Identity 1 is taken by an instance the dispatcher does not hold. *)
Definition state_cached (raises : bool) : State :=
  mkState (mkDispatcher ∅ {[MONOLITH := Some (Real 0 true raises)]})
          2 [] MONOLITH None None.

(** A state whose MONOLITH slot holds an instance that evaluates as false,
    with a constructor registered for MONOLITH. *)
Definition state_falsy : State :=
  mkState (mkDispatcher {[MONOLITH := MkReal true false]}
                        {[MONOLITH := Some (Real 0 false false)]})
          1 [] MONOLITH None None.

(** The [finally] block of [with_replacement]. *)
Definition with_replacement_finally (silo_mode : SiloMode) (prev : option Inst) : M unit :=
  close (Some silo_mode) ;;;
  s1 <- get ;;
  modify (set_singleton (<[silo_mode := prev]> (_singleton (disp s1)))).

(** ** Stub class synthesis *)

(** What a class attribute is, as far as stub synthesis can tell. *)
Inductive Member :=
| Abstract                 (* a function with __isabstractmethod__ = True *)
| Concrete                 (* any other attribute *)
| Wrapper (method_name : string) (target_mode : SiloMode)
                           (* make_method(method_name) *)
| CloseForwarder           (* the local function close *)
| InitFromBacking.         (* the local function __init__ *)

#[global] Instance Member_eq_dec : EqDecision Member.
Proof. solve_decision. Defined.

(** A class object: [__name__], [__bases__], its own [__dict__], and the
    dictionaries of the rest of its [__mro__], nearest first. *)
#[local] Set Warnings "-register-all".
Inductive Class :=
  mkClass (cls_name : string) (cls_bases : list Class)
          (cls_dict : gmap string Member)
          (cls_mro_tail : list (gmap string Member)).

Definition cls_name (c : Class) : string :=
  match c with mkClass n _ _ _ => n end.
Definition cls_bases (c : Class) : list Class :=
  match c with mkClass _ b _ _ => b end.
Definition cls_dict (c : Class) : gmap string Member :=
  match c with mkClass _ _ d _ => d end.
Definition cls_mro_tail (c : Class) : list (gmap string Member) :=
  match c with mkClass _ _ _ t => t end.

(** Attribute lookup on a class: the first dictionary along the MRO that
    has the name decides.  Its keys are [dir(c)], its values
    [getattr(c, name)]. *)
Definition class_attrs (c : Class) : gmap string Member :=
  union_list (cls_dict c :: cls_mro_tail c).

(** [getattr(member, "__isabstractmethod__", False)] *)
Definition is_abstract (m : Member) : bool :=
  match m with Abstract => true | _ => false end.

(** The names an implementation of [c] still has to provide: those that
    resolve to an abstract method ([c.__abstractmethods__]). *)
Definition abstract_methods (c : Class) : gset string :=
  dom (filter (fun kv => is_abstract kv.2 = true) (class_attrs c)).

(** [type(name, (base,), namespace)] for a single base. *)
Definition type_new (name : string) (base : Class) (namespace : gmap string Member) : Class :=
  mkClass name [base] namespace (cls_dict base :: cls_mro_tail base).

(** [CreateStubFromBase(base, target_mode)]; [None] is the IndexError of
    [base.__bases__[0]] on a class without bases. *)
Definition CreateStubFromBase (base : Class) (target_mode : SiloMode) : option Class :=
  match cls_bases base with
  | [] => None
  | Super :: _ =>
      let methods : gmap string Member :=
        map_imap (fun name m =>
                    if is_abstract m then Some (Wrapper name target_mode)
                    else None)
                 (class_attrs Super) in
      let methods := <["close" := CloseForwarder]> methods in
      let methods := <["__init__" := InitFromBacking]> methods in
      Some (type_new ("Stub" +:+ cls_name Super) Super methods)
  end.

(** The names for which a class's own dictionary holds a mode-switching
    wrapper. *)
Definition is_wrapper (m : Member) : bool :=
  match m with Wrapper _ _ => true | _ => false end.

Definition wrapped_methods (c : Class) : gset string :=
  dom (filter (fun kv => is_wrapper kv.2 = true) (cls_dict c)).

(** The classes of the examples. *)
Definition object_cls : Class :=
  mkClass "object" [] {["__init__" := Concrete]} [].

Definition InterfaceWithLifecycle : Class :=
  type_new "InterfaceWithLifecycle" object_cls {["close" := Abstract]}.

Definition UserService : Class :=
  type_new "UserService" InterfaceWithLifecycle {["get_user" := Abstract]}.

Definition DatabaseBackedUserService : Class :=
  type_new "DatabaseBackedUserService" UserService
    (<["get_user" := Concrete]> {["close" := Concrete]}).


(** ** Stub methods *)

(** Modelled from the spec: [AuthenticationContext] of
    [sentry.services.hybrid_cloud.auth] is not among the sources.  A context
    is named by a number, [AuthenticationContext()] is the default one, and
    [applied_to_request()] is a scoped acquisition. *)
Definition default_auth_context : nat := 0.

Definition applied_to_request {A} (ctx : nat) (body : M A) : M A :=
  modify (emit (EvAuthEnter ctx)) ;;;
  try_finally body (modify (emit (EvAuthExit ctx))).

(** [cb(self.backing_service, method_name, *args, **kwds)] *)
Definition run_cb (cb : Callback) (backing : Inst) (name : string) : M unit :=
  modify (emit (EvCb (oid_of backing) name)) ;;;
  match cb with
  | CbObserve => ret tt
  | CbRaise e => raise e
  end.

Section StubCalls.

(** The concrete service classes are not part of the module: the class of
    a real instance and what the methods accept and do are parameters. *)
Context {Args Value : Type}.
(** [type(instance)] of real instance [oid] *)
Variable real_class : nat -> Class.
(** whether the arguments bind to the signature of the function that
    [name] resolves to on instance [oid] *)
Variable binds : nat -> string -> Args -> bool.
(** the value bound to the parameter [auth_context], when the signature
    has one and the value is not falsy *)
Variable auth_context_arg : nat -> string -> Args -> option nat.
(** the body of the function that [name] resolves to, run with instance
    [oid] as [self] *)
Variable method_body : nat -> string -> Args -> M Value.
(** the value [None] *)
Variable none_value : Value.

(** [type(instance)].  The class of a stub instance is the one [stubbed]
    made for it, [CreateStubFromBase(type(backing), mode)]; the result is
    [None] when that call raised, so that no such instance exists. *)
Fixpoint type_of (i : Inst) : option Class :=
  match i with
  | Real k _ _ => Some (real_class k)
  | StubInst _ _ target_mode backing_service =>
      match type_of backing_service with
      | Some base => CreateStubFromBase base target_mode
      | None => None
      end
  end.

(** The class attribute that a method call [instance.name(...)] finds. *)
Definition lookup_method (i : Inst) (name : string) : Res Member :=
  match type_of i with
  | None => Raise IndexError
  | Some c =>
      match class_attrs c !! name with
      | Some m => Ok m
      | None => Raise AttributeError
      end
  end.

(** [method = getattr(backing, name)] followed by
    [inspect.getcallargs(method, *args, **kwds)], reduced to what the
    wrapper reads in the result: the non-falsy [auth_context] argument if
    any.  The wrappers of a stub have the signature
    [(self, *args, **kwds)], which binds anything and has no
    [auth_context]. *)
Definition getcallargs (backing : Inst) (name : string) (args : Args)
    : Res (option nat) :=
  match lookup_method backing name with
  | Raise e => Raise e
  | Ok (Wrapper _ _) => Ok None
  | Ok _ =>
      if binds (oid_of backing) name args
      then Ok (auth_context_arg (oid_of backing) name args)
      else Raise TypeError
  end.

(** [instance.name(args)], a method call, by the attribute the name
    resolves to on the class of the instance.  A [Wrapper] is the [method]
    closure of [make_method]; [close] is [instance.close()] as above;
    any other function runs its body with the instance as [self], in the
    mode of the caller.  The rebinding of [backing_service] by a second
    call of [__init__] on an instance is not tracked. *)
Fixpoint call_method (i : Inst) (name : string) (args : Args) : M Value :=
  match lookup_method i name with
  | Raise e => raise e
  | Ok (Wrapper method_name target_mode) =>
      match i with
      | Real _ _ _ => raise AttributeError
      | StubInst _ _ _ backing_service =>
          exit_single_process_silo_context
            (s <- get ;;
             match hc_test_stub_cb s with
             | Some cb => run_cb cb backing_service method_name
             | None => ret tt
             end ;;;
             match getcallargs backing_service method_name args with
             | Raise e => raise e
             | Ok auth =>
                 let auth_context := default default_auth_context auth in
                 applied_to_request auth_context
                   (enter_single_process_silo_context target_mode
                      (call_method backing_service method_name args))
             end)
      end
  | Ok CloseForwarder =>
      match i with
      | Real _ _ _ => raise AttributeError
      | StubInst _ _ _ _ => inst_close i ;;; ret none_value
      end
  | Ok InitFromBacking => ret none_value
  | Ok _ =>
      if binds (oid_of i) name args then
        if decide (name = "close") then inst_close i ;;; ret none_value
        else
          s <- get ;;
          modify (emit (EvCall (oid_of i) name (get_current_mode s))) ;;;
          method_body (oid_of i) name args
      else raise TypeError
  end.

(** The state in which the backing method body starts when the wrapper of
    a stub over real instance [k] is entered in state [s]. *)
Definition stub_body_state (target : SiloMode) (k : nat) (name : string)
    (args : Args) (s : State) : State :=
  let s1 := set_single_process_mode None s in
  let s2 := match hc_test_stub_cb s with
            | Some _ => emit (EvCb k name) s1
            | None => s1
            end in
  let ctx := default default_auth_context (auth_context_arg k name args) in
  emit (EvCall k name target)
    (set_single_process_mode (Some target) (emit (EvAuthEnter ctx) s2)).

(** What the wrapper does to the state the body left. *)
Definition stub_unwind (k : nat) (name : string) (args : Args)
    (s s_after : State) : State :=
  let ctx := default default_auth_context (auth_context_arg k name args) in
  set_single_process_mode (single_process_mode s)
    (emit (EvAuthExit ctx) (set_single_process_mode None s_after)).

(** The authentication context a wrapper applies when its backing
    instance is [b]: a stub's own wrappers take no [auth_context]. *)
Definition wrapper_ctx (b : Inst) (name : string) (args : Args) : nat :=
  default default_auth_context
    (match b with
     | Real k _ _ => auth_context_arg k name args
     | StubInst _ _ _ _ => None
     end).

(** The state in which a wrapper, entered in [s], calls its backing
    instance, and what it does to the state that call left. *)
Definition wrapper_enter (target : SiloMode) (b : Inst) (name : string)
    (args : Args) (s : State) : State :=
  let s1 := set_single_process_mode None s in
  let s2 := match hc_test_stub_cb s with
            | Some _ => emit (EvCb (oid_of b) name) s1
            | None => s1
            end in
  set_single_process_mode (Some target)
    (emit (EvAuthEnter (wrapper_ctx b name args)) s2).

Definition wrapper_exit (b : Inst) (name : string) (args : Args)
    (s s_after : State) : State :=
  set_single_process_mode (single_process_mode s)
    (emit (EvAuthExit (wrapper_ctx b name args))
       (set_single_process_mode None s_after)).

(** Down a chain of stubs to the body of the real method, and back. *)
Fixpoint chain_enter (i : Inst) (name : string) (args : Args) (s : State)
    : State :=
  match i with
  | Real k _ _ => emit (EvCall k name (get_current_mode s)) s
  | StubInst _ _ target b =>
      chain_enter b name args (wrapper_enter target b name args s)
  end.

Fixpoint chain_exit (i : Inst) (name : string) (args : Args)
    (s s_after : State) : State :=
  match i with
  | Real _ _ _ => s_after
  | StubInst _ _ target b =>
      wrapper_exit b name args s
        (chain_exit b name args (wrapper_enter target b name args s) s_after)
  end.

End StubCalls.

(** A backing method for the examples: it returns the number of the mode
    it runs in, or raises when called with [false]. *)
Definition probe_body (k : nat) (name : string) (args : bool) : M nat :=
  s <- get ;;
  if args then ret (SiloMode_to_nat (get_current_mode s))
  else raise (UserError k).

(** ** Further views *)

(** Whether [close()] returns on the instance a constructor makes. *)
Fixpoint factory_close_returns (f : Factory) : bool :=
  match f with
  | MkReal _ r => negb r
  | Stubbed g _ _ => factory_close_returns g
  end.

(** The real instance at the bottom of a chain of stubs, and the target
    mode of the stub that wraps it directly. *)
Fixpoint real_oid (i : Inst) : nat :=
  match i with
  | Real k _ _ => k
  | StubInst _ _ _ b => real_oid b
  end.

Fixpoint innermost_target (i : Inst) : option SiloMode :=
  match i with
  | Real _ _ _ => None
  | StubInst _ _ target b =>
      match innermost_target b with
      | Some t => Some t
      | None => Some target
      end
  end.

(** The values [close()] collects: every cached value that is not None. *)
Definition cached_instances (m : gmap SiloMode (option Inst)) : list Inst :=
  omap (fun kv => snd kv) (map_to_list m).

(** A state with two cached singletons, one of which evaluates as false,
    and constructors for both modes. *)
Definition state_two : State :=
  mkState (mkDispatcher
             (<[MONOLITH := MkReal true false]> {[REGION := MkReal false false]})
             (<[MONOLITH := Some (Real 0 true false)]>
                {[REGION := Some (Real 1 false false)]}))
          2 [] MONOLITH None None.

(** The accesses of an outer scope, an inner scope and the outer scope
    again, for the same mode. *)
Definition nested_scopes (a b : Inst) (mode : SiloMode)
    (items1 items2 items3 : list string)
    : M (list Attr * list Attr * list Attr) :=
  with_replacement (Some a) mode
    (r1 <- calls items1 ;;
     r2 <- with_replacement (Some b) mode (calls items2) ;;
     r3 <- calls items3 ;;
     ret (r1, r2, r3)).

(** * Properties *)

(** ** Basic facts *)

(** Closes a goal [n ∉ [n1; ...; nk]] over distinct numerals. *)
Ltac solve_notin :=
  let H := fresh "Hin" in
  intros H;
  repeat (apply elem_of_cons in H as [H | H]; [discriminate H |]);
  by apply elem_of_nil in H.

Section Basics.

Implicit Types (s : State) (i : Inst) (f : Factory).

Lemma emit_all_cons e evs s : emit_all evs (emit e s) = emit_all (e :: evs) s.
Proof. unfold emit_all, emit; simpl. by rewrite <- app_assoc. Qed.

Lemma inst_close_spec i s :
  inst_close i s =
    (if close_returns i then Ok tt
     else Raise (CloseFailed (List.last (oids i) 0)),
     emit_all (close_events i) s).
Proof.
  revert s. induction i as [n t r | n bt m b IH]; intros s.
  - destruct r; reflexivity.
  - cbn [inst_close]. unfold bind, modify. rewrite IH.
    rewrite emit_all_cons. cbn [close_returns close_events oids].
    destruct b; reflexivity.
Qed.

Lemma build_fresh f n :
  n <= oid_of (build f n).1 < (build f n).2.
Proof.
  revert n. induction f as [t r | g IH m bt]; intros n; simpl.
  - lia.
  - specialize (IH n). destruct (build g n) as [b n1]. simpl in *. lia.
Qed.

Lemma build_truthy f n : truthy (build f n).1 = factory_truthy f.
Proof.
  destruct f as [t r | g m bt]; simpl; [done |].
  by destruct (build g n).
Qed.

Lemma run_factory_spec f s :
  run_factory f s =
    (Ok (build f (next_oid s)).1, set_next_oid (build f (next_oid s)).2 s).
Proof.
  revert s. induction f as [t r | g IH m bt]; intros s.
  - reflexivity.
  - cbn [run_factory]. unfold bind at 1. rewrite IH. simpl.
    destruct (build g (next_oid s)) as [b n1]. reflexivity.
Qed.

(** [close(mode)] first clears the slot, then closes what it held. *)
Lemma close_mode_spec (mode : SiloMode) s :
  close (Some mode) s =
    match if_truthy (dict_get (_singleton (disp s)) mode) with
    | Some e =>
        (inst_close e ;;; ret tt)
          (set_singleton (<[mode := None]> (_singleton (disp s))) s)
    | None =>
        (Ok tt, set_singleton (<[mode := None]> (_singleton (disp s))) s)
    end.
Proof.
  unfold close, bind, get, modify, ret.
  destruct (if_truthy _); reflexivity.
Qed.

Lemma getattr_hit s impl item :
  dict_get (_singleton (disp s)) (get_current_mode s) = Some impl ->
  truthy impl = true ->
  __getattr__ item s = (Ok (AttrOf impl item), s).
Proof.
  intros Hget Ht. unfold __getattr__, bind, get.
  rewrite Hget. simpl. rewrite Ht. reflexivity.
Qed.

Lemma calls_hit s impl items :
  dict_get (_singleton (disp s)) (get_current_mode s) = Some impl ->
  truthy impl = true ->
  calls items s = (Ok (map (AttrOf impl) items), s).
Proof.
  intros Hget Ht. induction items as [| item rest IH]; [done |].
  cbn [calls]. unfold bind at 1. rewrite (getattr_hit _ impl) by done.
  unfold bind. rewrite IH. reflexivity.
Qed.

Lemma dict_get_insert_eq (m : gmap SiloMode (option Inst)) k v :
  dict_get (<[k := v]> m) k = v.
Proof. unfold dict_get. by rewrite lookup_insert_eq. Qed.

Lemma dict_get_insert_ne (m : gmap SiloMode (option Inst)) k k' v :
  k <> k' -> dict_get (<[k := v]> m) k' = dict_get m k'.
Proof. intros. unfold dict_get. by rewrite lookup_insert_ne. Qed.

End Basics.

(** ** Dispatch *)

Section Dispatch.

Implicit Types (s : State) (i : Inst) (f : Factory).

Lemma getattr_miss s con item :
  if_truthy (dict_get (_singleton (disp s)) (get_current_mode s)) = None ->
  _constructors (disp s) !! get_current_mode s = Some con ->
  __getattr__ item s =
    (Ok (AttrOf (build con (next_oid s)).1 item), constructed con s).
Proof.
  intros Hnone Hcon. unfold __getattr__, bind at 1, get.
  rewrite Hnone, Hcon. unfold bind at 1.
  rewrite close_mode_spec, Hnone.
  unfold bind at 1. rewrite run_factory_spec.
  unfold constructed, bind, modify, get, ret. simpl.
  destruct (build con (next_oid s)) as [inst n]. simpl.
  unfold set_singleton, set_disp. simpl.
  by rewrite insert_insert_eq.
Qed.

Lemma getattr_none s item :
  if_truthy (dict_get (_singleton (disp s)) (get_current_mode s)) = None ->
  _constructors (disp s) !! get_current_mode s = None ->
  __getattr__ item s =
    (Raise (KeyError_NoImplementation (get_current_mode s)), s).
Proof.
  intros Hnone Hcon. unfold __getattr__, bind, get.
  rewrite Hnone, Hcon. reflexivity.
Qed.

Lemma constructed_mode con s :
  get_current_mode (constructed con s) = get_current_mode s.
Proof. unfold constructed. by destruct (build _ _). Qed.

Lemma constructed_singleton con s :
  _singleton (disp (constructed con s)) =
    <[get_current_mode s := Some (build con (next_oid s)).1]>
      (_singleton (disp s)).
Proof. unfold constructed. by destruct (build _ _). Qed.

Lemma constructed_constructors con s :
  _constructors (disp (constructed con s)) = _constructors (disp s).
Proof. unfold constructed. by destruct (build _ _). Qed.

Lemma constructed_trace con s :
  trace (constructed con s) =
    trace s ++ [EvConstruct (get_current_mode s)
                            (oid_of (build con (next_oid s)).1)].
Proof. unfold constructed. by destruct (build _ _). Qed.

Lemma constructed_next_oid con s :
  next_oid (constructed con s) = (build con (next_oid s)).2.
Proof. unfold constructed. by destruct (build _ _). Qed.

End Dispatch.

(** C2.  When the current mode has neither a cached singleton or override
    (the slot is missing or holds None) nor a registered constructor, an
    attribute access on the dispatcher raises the KeyError "No
    implementation found for <mode>", an exception of its own kind, and
    the whole state, the singletons map included, is what it was: no entry
    added, nothing closed, nothing constructed. *)
Theorem getattr_no_implementation (s : State) (item : string) :
  dict_get (_singleton (disp s)) (get_current_mode s) = None ->
  _constructors (disp s) !! get_current_mode s = None ->
  __getattr__ item s = (Raise (KeyError_NoImplementation (get_current_mode s)), s)
  /\ (forall n, KeyError_NoImplementation (get_current_mode s) <> CloseFailed n)
  /\ (forall n, KeyError_NoImplementation (get_current_mode s) <> UserError n)
  /\ KeyError_NoImplementation (get_current_mode s) <> TypeError.
Proof.
  intros Hget Hcon. repeat split; try discriminate.
  apply getattr_none; [by rewrite Hget | done].
Qed.

Lemma getattr_no_implementation_witness :
  __getattr__ "get_user" (set_disp (mkDispatcher {[REGION := MkReal true false]} ∅) state0)
  = (Raise (KeyError_NoImplementation MONOLITH),
     set_disp (mkDispatcher {[REGION := MkReal true false]} ∅) state0).
Proof.
  apply (getattr_no_implementation
           (set_disp (mkDispatcher {[REGION := MkReal true false]} ∅) state0)
           "get_user"); reflexivity.
Defined.

(** ** Lazy get-or-create, one singleton per mode *)

(** X17.  Constructing the dispatcher calls no
    constructor.  A cached instance that evaluates as true is used by every
    access in its mode, and the state does not change.  With the slot of
    the current mode empty and a constructor registered whose instances
    evaluate as true, the first access calls that constructor exactly once
    and closes nothing, caches the instance, and every later access in that
    mode is forwarded to that very instance and constructs nothing.  An
    access in a second mode constructs, with that mode's constructor, an
    instance of another identity, and the first mode's slot still holds the
    first instance. *)
Theorem dispatch_lazy_singleton_per_mode
    (mapping : gmap SiloMode Factory) (s0 : State) (A B : SiloMode)
    (conA conB : Factory) (item itemB : string) (items : list string) :
  mapping !! A = Some conA ->
  mapping !! B = Some conB ->
  A <> B ->
  factory_truthy conA = true ->
  get_current_mode s0 = A ->
  (* any access that finds a cached instance *)
  (forall s impl it,
      dict_get (_singleton (disp s)) (get_current_mode s) = Some impl ->
      truthy impl = true ->
      __getattr__ it s = (Ok (AttrOf impl it), s))
  /\ exists s1 instA s2 instB s3,
    (* construction of the dispatcher *)
    __init__ mapping s0 = (Ok tt, s1)
    /\ trace s1 = trace s0 /\ next_oid s1 = next_oid s0
    /\ _singleton (disp s1) = ∅
    (* first access in mode A *)
    /\ __getattr__ item s1 = (Ok (AttrOf instA item), s2)
    /\ instA = (build conA (next_oid s0)).1
    /\ trace s2 = trace s0 ++ [EvConstruct A (oid_of instA)]
    /\ _singleton (disp s2) !! A = Some (Some instA)
    (* later accesses in mode A *)
    /\ calls items s2 = (Ok (map (AttrOf instA) items), s2)
    (* an access in mode B *)
    /\ __getattr__ itemB (set_single_process_mode (Some B) s2)
       = (Ok (AttrOf instB itemB), s3)
    /\ instB = (build conB (next_oid s2)).1
    /\ trace s3 = trace s2 ++ [EvConstruct B (oid_of instB)]
    /\ oid_of instB <> oid_of instA
    /\ _singleton (disp s3) !! B = Some (Some instB)
    /\ _singleton (disp s3) !! A = Some (Some instA).
Proof.
  intros HA HB HAB HtA Hcur.
  split; [intros s impl it Hs Hi; by apply getattr_hit |].
  set (s1 := set_disp (mkDispatcher mapping ∅) s0).
  assert (Hcur1 : get_current_mode s1 = A) by exact Hcur.
  set (instA := (build conA (next_oid s0)).1).
  set (s2 := constructed conA s1).
  assert (Hg1 : __getattr__ item s1 = (Ok (AttrOf instA item), s2)).
  { apply (getattr_miss s1 conA item).
    - rewrite Hcur1. reflexivity.
    - rewrite Hcur1. exact HA. }
  assert (Hsing2 : _singleton (disp s2) = <[A := Some instA]> ∅).
  { unfold s2. rewrite constructed_singleton, Hcur1. reflexivity. }
  assert (Hcur2 : get_current_mode s2 = A).
  { unfold s2. by rewrite constructed_mode. }
  set (sB := set_single_process_mode (Some B) s2).
  assert (HcurB : get_current_mode sB = B) by reflexivity.
  set (instB := (build conB (next_oid s2)).1).
  set (s3 := constructed conB sB).
  assert (Hg3 : __getattr__ itemB sB = (Ok (AttrOf instB itemB), s3)).
  { apply (getattr_miss sB conB).
    - rewrite HcurB. change (_singleton (disp sB)) with (_singleton (disp s2)).
      rewrite Hsing2, dict_get_insert_ne by done. reflexivity.
    - rewrite HcurB.
      change (_constructors (disp sB)) with (_constructors (disp s2)).
      unfold s2. rewrite constructed_constructors. exact HB. }
  assert (Hsing3 : _singleton (disp s3) = <[B := Some instB]> (<[A := Some instA]> ∅)).
  { unfold s3. rewrite constructed_singleton, HcurB.
    change (_singleton (disp sB)) with (_singleton (disp s2)).
    by rewrite Hsing2. }
  exists s1, instA, s2, instB, s3.
  split; [reflexivity |]. split; [reflexivity |]. split; [reflexivity |].
  split; [reflexivity |]. split; [exact Hg1 |]. split; [reflexivity |].
  split.
  { unfold s2. rewrite constructed_trace, Hcur1. reflexivity. }
  split.
  { rewrite Hsing2. apply lookup_insert_eq. }
  split.
  { apply calls_hit.
    - rewrite Hcur2, Hsing2. apply dict_get_insert_eq.
    - unfold instA. by rewrite build_truthy. }
  split; [exact Hg3 |]. split; [reflexivity |].
  split.
  { unfold s3. rewrite constructed_trace, HcurB. reflexivity. }
  split.
  { pose proof (build_fresh conA (next_oid s0)) as FA.
    pose proof (build_fresh conB (next_oid s2)) as FB.
    assert (next_oid s2 = (build conA (next_oid s0)).2) as Hn.
    { unfold s2. rewrite constructed_next_oid. reflexivity. }
    unfold instA, instB. lia. }
  split.
  { rewrite Hsing3. apply lookup_insert_eq. }
  rewrite Hsing3, lookup_insert_ne by done. apply lookup_insert_eq.
Qed.

Lemma dispatch_lazy_singleton_per_mode_witness :
  exists s1 instA s2 instB s3,
    __init__ (<[MONOLITH := MkReal true false]> {[REGION := Stubbed (MkReal true false) REGION true]})
         state0 = (Ok tt, s1)
    /\ trace s1 = trace state0 /\ next_oid s1 = next_oid state0
    /\ _singleton (disp s1) = ∅
    /\ __getattr__ "get_user" s1 = (Ok (AttrOf instA "get_user"), s2)
    /\ instA = (build (MkReal true false) (next_oid state0)).1
    /\ trace s2 = trace state0 ++ [EvConstruct MONOLITH (oid_of instA)]
    /\ _singleton (disp s2) !! MONOLITH = Some (Some instA)
    /\ calls ["get_user"; "get_many"] s2
       = (Ok (map (AttrOf instA) ["get_user"; "get_many"]), s2)
    /\ __getattr__ "get_org" (set_single_process_mode (Some REGION) s2)
       = (Ok (AttrOf instB "get_org"), s3)
    /\ instB = (build (Stubbed (MkReal true false) REGION true) (next_oid s2)).1
    /\ trace s3 = trace s2 ++ [EvConstruct REGION (oid_of instB)]
    /\ oid_of instB <> oid_of instA
    /\ _singleton (disp s3) !! REGION = Some (Some instB)
    /\ _singleton (disp s3) !! MONOLITH = Some (Some instA).
Proof.
  refine (proj2 (dispatch_lazy_singleton_per_mode
           (<[MONOLITH := MkReal true false]> {[REGION := Stubbed (MkReal true false) REGION true]})
           state0 MONOLITH REGION (MkReal true false)
           (Stubbed (MkReal true false) REGION true)
           "get_user" "get_org" ["get_user"; "get_many"] _ _ _ _ _));
    try reflexivity; discriminate.
Defined.

(** C1, at an instance that evaluates as false.  The constructor of
    MONOLITH makes such instances: the second access is not forwarded to
    the instance the first one cached; the constructor runs a second time
    and the first instance is dropped without a [close()].  The test
    [if impl := ...] takes a cached instance that is falsy for no instance
    at all, unlike [close()], which tests [is not None]. *)
Lemma dispatch_falsy_instance_not_reused :
  let mapping : gmap SiloMode Factory := {[MONOLITH := MkReal false false]} in
  let '(r, s) :=
    (__init__ mapping ;;;
     a <- __getattr__ "get_user" ;;
     b <- __getattr__ "get_user" ;;
     ret (a, b)) state0 in
  r = Ok (AttrOf (Real 0 false false) "get_user",
          AttrOf (Real 1 false false) "get_user")
  /\ trace s = [EvConstruct MONOLITH 0; EvConstruct MONOLITH 1]
  /\ construct_count (trace s) = 2.
Proof. vm_compute. repeat split. Qed.

(** ** Teardown *)

Section Teardown.

Implicit Types (s : State) (i : Inst) (mode : SiloMode).

Lemma set_singleton_id s : set_singleton (_singleton (disp s)) s = s.
Proof. destruct s as [[c m] n t p o h]. reflexivity. Qed.


Lemma close_mode_disp mode s :
  _singleton (disp (close (Some mode) s).2) =
    <[mode := None]> (_singleton (disp s)).
Proof.
  rewrite close_mode_spec. destruct (if_truthy _) as [e |]; [| done].
  unfold bind. rewrite inst_close_spec.
  destruct (close_returns e); reflexivity.
Qed.

Lemma close_all_spec s :
  close None s =
    for_each inst_close
      (omap (fun kv => snd kv) (map_to_list (_singleton (disp s))))
      (set_singleton ∅ s).
Proof. reflexivity. Qed.

Lemma close_mode_falsy mode s :
  if_truthy (dict_get (_singleton (disp s)) mode) = None ->
  close (Some mode) s =
    (Ok tt, set_singleton (<[mode := None]> (_singleton (disp s))) s).
Proof. intros H. by rewrite close_mode_spec, H. Qed.

Lemma close_mode_live mode s i :
  dict_get (_singleton (disp s)) mode = Some i ->
  truthy i = true ->
  close (Some mode) s =
    (if close_returns i then Ok tt
     else Raise (CloseFailed (List.last (oids i) 0)),
     emit_all (close_events i)
       (set_singleton (<[mode := None]> (_singleton (disp s))) s)).
Proof.
  intros Hget Ht. rewrite close_mode_spec, Hget. simpl. rewrite Ht.
  unfold bind. rewrite inst_close_spec.
  destruct (close_returns i); reflexivity.
Qed.

End Teardown.



(** C8.  After a [close(mode)], whatever its outcome, a second
    [close(mode)] returns normally and changes nothing: no [close()] of any
    instance is entered.  On a mode that was never used, [close(mode)]
    returns normally and enters no [close()]; the slot then holds None.
    The two calls together enter the [close()] of a live instance once. *)
Theorem close_idempotent (s : State) (mode : SiloMode) :
  close (Some mode) (close (Some mode) s).2 = (Ok tt, (close (Some mode) s).2)
  /\ (_singleton (disp s) !! mode = None ->
      close (Some mode) s =
        (Ok tt, set_singleton (<[mode := None]> (_singleton (disp s))) s)
      /\ trace (close (Some mode) s).2 = trace s)
  /\ (forall i,
        dict_get (_singleton (disp s)) mode = Some i ->
        truthy i = true ->
        trace (close (Some mode) (close (Some mode) s).2).2
        = trace s ++ close_events i).
Proof.
  assert (H2 : close (Some mode) (close (Some mode) s).2
               = (Ok tt, (close (Some mode) s).2)).
  { rewrite (close_mode_falsy mode (close (Some mode) s).2).
    - rewrite close_mode_disp, insert_insert_eq.
      rewrite <- (close_mode_disp mode s), set_singleton_id. reflexivity.
    - rewrite close_mode_disp, dict_get_insert_eq. reflexivity. }
  split; [exact H2 |]. split.
  - intros Hnone.
    assert (close (Some mode) s =
      (Ok tt, set_singleton (<[mode := None]> (_singleton (disp s))) s)) as ->.
    { apply close_mode_falsy. unfold dict_get. rewrite Hnone. reflexivity. }
    split; reflexivity.
  - intros i Hget Ht. rewrite H2.
    rewrite (close_mode_live mode s i Hget Ht). reflexivity.
Qed.

Lemma close_idempotent_witness :
  close (Some REGION) (state_cached false)
  = (Ok tt, set_singleton
              (<[REGION := None]> (_singleton (disp (state_cached false))))
              (state_cached false))
  /\ trace (close (Some REGION) (state_cached false)).2
     = trace (state_cached false).
Proof.
  apply (proj1 (proj2 (close_idempotent (state_cached false) REGION))).
  reflexivity.
Defined.

(** C10.  Presence of a cached instance is tested by truth value.  With an
    instance that evaluates as false cached for the current mode and a
    constructor registered, an access does not forward to the cached
    instance: the constructor is called, its fresh instance takes the slot,
    and the cached one is dropped without a [close()].  [close(mode)] on a
    slot holding such an instance enters no [close()] at all. *)
Theorem presence_is_truthiness (s : State) (i : Inst) (con : Factory)
    (item : string) (mode : SiloMode) :
  truthy i = false ->
  (dict_get (_singleton (disp s)) (get_current_mode s) = Some i ->
   _constructors (disp s) !! get_current_mode s = Some con ->
   oid_of i < next_oid s ->
   exists inst s',
     __getattr__ item s = (Ok (AttrOf inst item), s')
     /\ inst = (build con (next_oid s)).1
     /\ oid_of inst <> oid_of i
     /\ trace s' = trace s ++ [EvConstruct (get_current_mode s) (oid_of inst)]
     /\ _singleton (disp s') !! get_current_mode s = Some (Some inst))
  /\ (dict_get (_singleton (disp s)) mode = Some i ->
      close (Some mode) s =
        (Ok tt, set_singleton (<[mode := None]> (_singleton (disp s))) s)
      /\ trace (close (Some mode) s).2 = trace s).
Proof.
  intros Hf. split.
  - intros Hget Hcon Hold.
    exists (build con (next_oid s)).1, (constructed con s).
    split.
    { apply getattr_miss; [| done]. rewrite Hget. simpl. by rewrite Hf. }
    split; [reflexivity |]. split.
    { pose proof (build_fresh con (next_oid s)). lia. }
    split; [apply constructed_trace |].
    rewrite constructed_singleton. apply lookup_insert_eq.
  - intros Hget.
    assert (close (Some mode) s =
      (Ok tt, set_singleton (<[mode := None]> (_singleton (disp s))) s)) as ->.
    { apply close_mode_falsy. rewrite Hget. simpl. by rewrite Hf. }
    split; reflexivity.
Qed.

Lemma presence_is_truthiness_witness :
  (exists inst s',
     __getattr__ "get_user" state_falsy = (Ok (AttrOf inst "get_user"), s')
     /\ inst = (build (MkReal true false) (next_oid state_falsy)).1
     /\ oid_of inst <> oid_of (Real 0 false false)
     /\ trace s' = trace state_falsy
                   ++ [EvConstruct (get_current_mode state_falsy) (oid_of inst)]
     /\ _singleton (disp s') !! get_current_mode state_falsy = Some (Some inst))
  /\ (close (Some MONOLITH) state_falsy =
        (Ok tt, set_singleton
                  (<[MONOLITH := None]> (_singleton (disp state_falsy)))
                  state_falsy)
      /\ trace (close (Some MONOLITH) state_falsy).2 = trace state_falsy).
Proof.
  destruct (presence_is_truthiness state_falsy (Real 0 false false)
              (MkReal true false) "get_user" MONOLITH eq_refl) as [H1 H2].
  split.
  - apply H1; [reflexivity | reflexivity | simpl; lia].
  - apply H2. reflexivity.
Defined.

Section Replacement.

Implicit Types (s : State) (i : Inst) (mode : SiloMode).

Lemma with_replacement_spec {A} (service : option Inst) mode (body : M A) s :
  with_replacement service mode body s =
    try_finally body
      (with_replacement_finally mode (dict_get (_singleton (disp s)) mode))
      (set_singleton (<[mode := service]> (_singleton (disp s))) s).
Proof. reflexivity. Qed.

(** Leaving the scope while the slot holds a live value: that value is
    closed; the saved value is put back only if the close returned. *)
Lemma finally_live mode prev s svc :
  dict_get (_singleton (disp s)) mode = Some svc ->
  truthy svc = true ->
  with_replacement_finally mode prev s =
    (if close_returns svc then Ok tt
     else Raise (CloseFailed (List.last (oids svc) 0)),
     emit_all (close_events svc)
       (set_singleton
          (<[mode := if close_returns svc then prev else None]>
             (_singleton (disp s))) s)).
Proof.
  intros Hget Ht. unfold with_replacement_finally, bind at 1.
  rewrite (close_mode_live mode s svc Hget Ht).
  destruct (close_returns svc); [| reflexivity].
  unfold bind, get, modify, set_singleton, set_disp; simpl.
  by rewrite insert_insert_eq.
Qed.

(** Leaving the scope while the slot holds nothing live. *)
Lemma finally_empty mode prev s :
  if_truthy (dict_get (_singleton (disp s)) mode) = None ->
  with_replacement_finally mode prev s =
    (Ok tt, set_singleton (<[mode := prev]> (_singleton (disp s))) s).
Proof.
  intros Hnone. unfold with_replacement_finally, bind at 1.
  rewrite (close_mode_falsy mode s Hnone).
  unfold bind, get, modify, set_singleton, set_disp; simpl.
  by rewrite insert_insert_eq.
Qed.

Lemma dict_get_Some (m : gmap SiloMode (option Inst)) mode i :
  dict_get m mode = Some i -> m !! mode = Some (Some i).
Proof.
  unfold dict_get. destruct (m !! mode) as [o |]; simpl; congruence.
Qed.

Lemma close_events_oids i : close_events i = map EvClose (oids i).
Proof. induction i; simpl; congruence. Qed.

Lemma close_count_notin n (l : list nat) :
  n ∉ l -> close_count n (map EvClose l) = 0.
Proof.
  unfold close_count. induction l as [| x l IH]; intros Hn; [done |].
  apply not_elem_of_cons in Hn as [Hne Hn]. simpl.
  rewrite bool_decide_eq_false_2 by congruence. by apply IH.
Qed.

Lemma construct_count_close_events i : construct_count (close_events i) = 0.
Proof.
  rewrite close_events_oids. unfold construct_count.
  induction (oids i); simpl; auto.
Qed.

Lemma scope_body_hit s impl items exn :
  dict_get (_singleton (disp s)) (get_current_mode s) = Some impl ->
  truthy impl = true ->
  scope_body items exn s =
    (match exn with
     | Some e => Raise e
     | None => Ok (map (AttrOf impl) items)
     end, s).
Proof.
  intros Hget Ht. unfold scope_body, bind.
  rewrite (calls_hit s impl items Hget Ht). by destruct exn.
Qed.

End Replacement.

(** X18.  With a live singleton [orig] cached for mode
    A, and a replacement [stub] that evaluates as true, whose [close()]
    returns and which neither is nor wraps [orig]: every access made in
    mode A inside [with_replacement(stub, A)] is forwarded to [stub]; when
    the scope is left, by falling off its end or by an exception of the
    body, the slot holds [orig] again, the very instance as before, nothing
    was constructed, the only [close()] entered is that of [stub], and
    accesses are forwarded to [orig] again. *)
Theorem with_replacement_round_trip
    (s : State) (A : SiloMode) (orig stub : Inst)
    (items : list string) (exn : option Exn) :
  get_current_mode s = A ->
  dict_get (_singleton (disp s)) A = Some orig ->
  truthy orig = true ->
  truthy stub = true ->
  close_returns stub = true ->
  oid_of orig ∉ oids stub ->
  let s_in := set_singleton (<[A := Some stub]> (_singleton (disp s))) s in
  let s_out := emit_all (close_events stub) s in
  calls items s_in = (Ok (map (AttrOf stub) items), s_in)
  /\ with_replacement (Some stub) A (scope_body items exn) s =
       (match exn with
        | Some e => Raise e
        | None => Ok (map (AttrOf stub) items)
        end, s_out)
  /\ _singleton (disp s_out) !! A = Some (Some orig)
  /\ close_count (oid_of orig) (close_events stub) = 0
  /\ construct_count (close_events stub) = 0
  /\ (forall item, __getattr__ item s_out = (Ok (AttrOf orig item), s_out)).
Proof.
  intros Hcur Hget Hto Hts Hcs Hdisj s_in s_out.
  assert (Hin : dict_get (_singleton (disp s_in)) (get_current_mode s_in)
                = Some stub).
  { change (get_current_mode s_in) with (get_current_mode s).
    rewrite Hcur. apply dict_get_insert_eq. }
  split; [by apply calls_hit |].
  split.
  { rewrite with_replacement_spec. unfold try_finally.
    fold s_in. rewrite (scope_body_hit s_in stub items exn Hin Hts).
    rewrite (finally_live A _ s_in stub); [| by rewrite <- Hcur | done].
    rewrite Hcs, Hget. f_equal.
    unfold s_out, s_in, emit_all, set_singleton, set_disp; simpl.
    rewrite insert_insert_eq, (insert_id _ _ _ (dict_get_Some _ _ _ Hget)).
    by destruct s as [[c m] n t p o h]. }
  split; [by apply dict_get_Some |].
  split; [rewrite close_events_oids; by apply close_count_notin |].
  split; [apply construct_count_close_events |].
  intros item. apply getattr_hit; [| done].
  change (get_current_mode s_out) with (get_current_mode s).
  by rewrite Hcur.
Qed.

Lemma with_replacement_round_trip_witness :
  with_replacement (Some (StubInst 2 true REGION (Real 1 true false))) MONOLITH
    (scope_body ["get_user"; "get_org"] (Some (UserError 7)))
    (set_next_oid 3 (state_cached false))
  = (Raise (UserError 7),
     emit_all (close_events (StubInst 2 true REGION (Real 1 true false)))
       (set_next_oid 3 (state_cached false))).
Proof.
  refine (proj1 (proj2 (with_replacement_round_trip
    (set_next_oid 3 (state_cached false)) MONOLITH (Real 0 true false)
    (StubInst 2 true REGION (Real 1 true false))
    ["get_user"; "get_org"] (Some (UserError 7)) _ _ _ _ _ _)));
    try reflexivity.
  simpl. solve_notin.
Defined.

(** C3, at a replacement whose [close()] raises.  The [finally] block is
    left by that exception before the saved singleton is put back: the
    slot stays cleared, the original singleton is dropped without a
    [close()], and the next access in that mode is not forwarded to it
    (here no constructor is registered, so the access raises). *)
Lemma with_replacement_close_raises_not_restored :
  let s := state_cached false in
  let '(r, s') :=
    with_replacement (Some (Real 1 true true)) MONOLITH
      (scope_body ["get_user"] None) s in
  dict_get (_singleton (disp s)) MONOLITH = Some (Real 0 true false)
  /\ r = Raise (CloseFailed 1)
  /\ _singleton (disp s') !! MONOLITH = Some None
  /\ (__getattr__ "get_user" s').1 = Raise (KeyError_NoImplementation MONOLITH).
Proof. vm_compute. repeat split. Qed.

(** ** C4: who is closed, and when *)

Lemma if_truthy_Some (o : option Inst) (v : Inst) :
  if_truthy o = Some v -> o = Some v /\ truthy v = true.
Proof.
  destruct o as [w |]; simpl; [| done].
  destruct (truthy w) eqn:E; [| done]. by intros [= <-].
Qed.

(** C4, as the code has it.  [close(mode)] on a mode that holds a live
    singleton stores None in the slot and then calls that singleton's
    [close()], once: the slot holds None also when that [close()] raises.
    [with_replacement(service, mode)], for any [service] and any body,
    enters no [close()] when it installs the replacement: the body starts
    in the state of the call with only the slot changed.  When the scope
    ends, the one [close()] entered is that of the live value the slot
    holds at that moment, if there is one, and not that of the displaced
    singleton as such; the displaced singleton is put back when that
    [close()] returns or there is nothing to close. *)
Theorem close_live_singleton_once {A}
    (s : State) (mode : SiloMode) (i : Inst)
    (service : option Inst) (body : M A) :
  dict_get (_singleton (disp s)) mode = Some i ->
  truthy i = true ->
  let s_in := set_singleton (<[mode := service]> (_singleton (disp s))) s in
  let s_b := (body s_in).2 in
  let at_exit := if_truthy (dict_get (_singleton (disp s_b)) mode) in
  (* close(mode) *)
  close (Some mode) s =
    (if close_returns i then Ok tt
     else Raise (CloseFailed (List.last (oids i) 0)),
     emit_all (close_events i)
       (set_singleton (<[mode := None]> (_singleton (disp s))) s))
  (* with_replacement: the installation *)
  /\ trace s_in = trace s
  (* with_replacement: the exit *)
  /\ trace (with_replacement service mode body s).2 =
       trace s_b ++ match at_exit with
                    | Some v => close_events v
                    | None => []
                    end
  /\ ((forall v, at_exit = Some v -> close_returns v = true) ->
      (with_replacement service mode body s).1 = (body s_in).1
      /\ _singleton (disp (with_replacement service mode body s).2) !! mode
         = Some (Some i)).
Proof.
  intros Hget Ht s_in s_b at_exit.
  split; [by apply close_mode_live |]. split; [reflexivity |].
  assert (Hrun : with_replacement service mode body s =
    match with_replacement_finally mode (Some i) s_b with
    | (Ok _, s2) => ((body s_in).1, s2)
    | (Raise e, s2) => (Raise e, s2)
    end).
  { rewrite with_replacement_spec, Hget. unfold try_finally. fold s_in.
    unfold s_b. by destruct (body s_in). }
  destruct at_exit as [v |] eqn:Eexit; unfold at_exit in Eexit.
  - destruct (if_truthy_Some _ _ Eexit) as [Hv Htv].
    rewrite Hrun, (finally_live mode _ s_b v Hv Htv). split.
    + by destruct (close_returns v).
    + intros Hret. rewrite (Hret v eq_refl). split; [done |].
      simpl. apply lookup_insert_eq.
  - rewrite Hrun, (finally_empty mode _ s_b Eexit). split.
    + simpl. by rewrite app_nil_r.
    + intros _. split; [done |]. simpl. apply lookup_insert_eq.
Qed.

Lemma close_live_singleton_once_witness :
  close (Some MONOLITH) (state_cached false) =
    (Ok tt,
     emit_all (close_events (Real 0 true false))
       (set_singleton
          (<[MONOLITH := None]> (_singleton (disp (state_cached false))))
          (state_cached false)))
  /\ trace (with_replacement (Some (Real 1 true false)) MONOLITH (ret tt)
              (state_cached false)).2
     = trace (state_cached false) ++ close_events (Real 1 true false).
Proof.
  destruct (close_live_singleton_once (state_cached false) MONOLITH
              (Real 0 true false) (Some (Real 1 true false)) (ret tt)
              eq_refl eq_refl)
    as (H1 & _ & H3 & _).
  split; [exact H1 | exact H3].
Defined.

(** C4 as worded fails twice.  With live singleton 0 cached for MONOLITH,
    a whole [with_replacement] scope with replacement 1 enters the
    [close()] of instance 1 only: that of the displaced singleton is
    entered zero times, not once.  And [close(mode)] does not call the
    singleton's [close()] before it overwrites the slot: when that
    [close()] raises, the slot already holds None. *)
Lemma with_replacement_does_not_close_displaced :
  (let s := state_cached false in
   let '(r, s') :=
     with_replacement (Some (Real 1 true false)) MONOLITH (ret tt) s in
   dict_get (_singleton (disp s)) MONOLITH = Some (Real 0 true false)
   /\ r = Ok tt
   /\ trace s' = [EvClose 1]
   /\ close_count 0 (trace s') = 0)
  /\ (let s := state_cached true in
      let '(r, s') := close (Some MONOLITH) s in
      dict_get (_singleton (disp s)) MONOLITH = Some (Real 0 true true)
      /\ r = Raise (CloseFailed 0)
      /\ trace s' = [EvClose 0]
      /\ _singleton (disp s') !! MONOLITH = Some None).
Proof. split; vm_compute; repeat split. Qed.

(** ** C5: a replacement by None *)

(** C5, as the code has it.  Inside [with_replacement(None, mode)] the slot
    holds None, whatever was cached before.  An access in that mode raises
    the no-implementation KeyError exactly when no constructor is
    registered for the mode, and then the scope ends with the saved value
    back in the slot and nothing closed or constructed.  When a constructor
    is registered, the access calls it and is forwarded to the fresh
    instance. *)
Theorem with_replacement_none
    (s : State) (mode : SiloMode) (item : string) :
  get_current_mode s = mode ->
  let s_in := set_singleton (<[mode := None]> (_singleton (disp s))) s in
  (_constructors (disp s) !! mode = None ->
   __getattr__ item s_in = (Raise (KeyError_NoImplementation mode), s_in)
   /\ with_replacement None mode (__getattr__ item) s =
        (Raise (KeyError_NoImplementation mode),
         set_singleton
           (<[mode := dict_get (_singleton (disp s)) mode]> (_singleton (disp s)))
           s))
  /\ (forall con,
        _constructors (disp s) !! mode = Some con ->
        __getattr__ item s_in =
          (Ok (AttrOf (build con (next_oid s)).1 item), constructed con s_in)
        /\ trace (constructed con s_in)
           = trace s ++ [EvConstruct mode (oid_of (build con (next_oid s)).1)]).
Proof.
  intros Hcur s_in.
  assert (Hcin : get_current_mode s_in = mode) by exact Hcur.
  assert (Hin : dict_get (_singleton (disp s_in)) mode = None)
    by apply dict_get_insert_eq.
  split.
  - intros Hcon.
    assert (Hg : __getattr__ item s_in = (Raise (KeyError_NoImplementation mode), s_in)).
    { pose proof (getattr_none s_in item) as Hn.
      rewrite Hcin, Hin in Hn. by apply Hn. }
    split; [exact Hg |].
    rewrite with_replacement_spec. unfold try_finally. fold s_in. rewrite Hg.
    rewrite finally_empty by (by rewrite Hin).
    f_equal. unfold s_in, set_singleton, set_disp; simpl.
    by rewrite insert_insert_eq.
  - intros con Hcon. split.
    + apply (getattr_miss s_in con item); rewrite Hcin; [by rewrite Hin | done].
    + rewrite constructed_trace, Hcin. reflexivity.
Qed.

Lemma with_replacement_none_witness :
  __getattr__ "get_user"
    (set_singleton (<[MONOLITH := None]> (_singleton (disp (state_cached false))))
       (state_cached false))
  = (Raise (KeyError_NoImplementation MONOLITH),
     set_singleton (<[MONOLITH := None]> (_singleton (disp (state_cached false))))
       (state_cached false)).
Proof.
  destruct (with_replacement_none (state_cached false) MONOLITH "get_user" eq_refl)
    as [H _].
  apply H. reflexivity.
Defined.

(** C5 as worded fails when a constructor is registered: inside
    [with_replacement(None, MONOLITH)] the access does not raise; it calls
    the constructor of MONOLITH and is forwarded to the fresh instance. *)
Lemma with_replacement_none_falls_back_to_constructor :
  let mapping : gmap SiloMode Factory := {[MONOLITH := MkReal true false]} in
  let '(r, s') :=
    (__init__ mapping ;;;
     with_replacement None MONOLITH (__getattr__ "get_user")) state0 in
  r = Ok (AttrOf (Real 0 true false) "get_user")
  /\ trace s' = [EvConstruct MONOLITH 0; EvClose 0].
Proof. vm_compute. repeat split. Qed.

(** ** Stub methods *)

Lemma try_finally_restore_mode {A} (body : M A) (old : option SiloMode) s :
  single_process_mode
    (try_finally body (modify (set_single_process_mode old)) s).2 = old.
Proof.
  unfold try_finally, modify. by destruct (body s) as [r s1].
Qed.

Lemma exit_context_restores {A} (body : M A) s :
  single_process_mode (exit_single_process_silo_context body s).2
  = single_process_mode s.
Proof.
  unfold exit_single_process_silo_context, bind, get, ret, modify.
  simpl. apply try_finally_restore_mode.
Qed.

Section Synthesis.

Implicit Types (c base Super : Class) (name : string).

Lemma abstract_methods_spec c name :
  name ∈ abstract_methods c <-> class_attrs c !! name = Some Abstract.
Proof.
  unfold abstract_methods. rewrite elem_of_dom. split.
  - intros [m [Hm Hab]%map_lookup_filter_Some]. simpl in Hab.
    by destruct m.
  - intros H. exists Abstract. by apply map_lookup_filter_Some.
Qed.

Lemma wrapped_methods_spec c name :
  name ∈ wrapped_methods c <->
  exists n t, cls_dict c !! name = Some (Wrapper n t).
Proof.
  unfold wrapped_methods. rewrite elem_of_dom. split.
  - intros [m [Hm Hw]%map_lookup_filter_Some]. simpl in Hw.
    destruct m; try discriminate. eauto.
  - intros (n & t & H). exists (Wrapper n t). by apply map_lookup_filter_Some.
Qed.

End Synthesis.

Section SynthesisCorrect.

Implicit Types (c base Super : Class) (name : string).

Lemma not_lifecycle_name name :
  name ∉ ({["close"; "__init__"]} : gset string) <->
  name <> "close" /\ name <> "__init__".
Proof. by rewrite not_elem_of_union, !not_elem_of_singleton. Qed.

(** The namespace [CreateStubFromBase] hands to [type], by name. *)
Lemma stub_dict_lookup base Super rest target stub name :
  cls_bases base = Super :: rest ->
  CreateStubFromBase base target = Some stub ->
  cls_dict stub !! name =
    if decide (name = "__init__") then Some InitFromBacking
    else if decide (name = "close") then Some CloseForwarder
    else if decide (class_attrs Super !! name = Some Abstract)
         then Some (Wrapper name target)
         else None.
Proof.
  intros Hb. unfold CreateStubFromBase. rewrite Hb. intros [= <-].
  cbn [type_new cls_dict].
  destruct (decide (name = "__init__")) as [-> | Hi].
  { by rewrite lookup_insert_eq. }
  rewrite lookup_insert_ne by done.
  destruct (decide (name = "close")) as [-> | Hc].
  { by rewrite lookup_insert_eq. }
  rewrite lookup_insert_ne by done.
  rewrite map_lookup_imap.
  destruct (decide (class_attrs Super !! name = Some Abstract)) as [E | E].
  - by rewrite E.
  - destruct (class_attrs Super !! name) as [[] |]; simpl; congruence.
Qed.

(** C9, as the code has it.  [CreateStubFromBase(base, target)] does not
    introspect [base] but its first direct base class, [Super]: the stub
    class derives from [Super] and is named after it; its namespace holds
    the [close] forwarder, the [__init__] that stores the backing instance,
    and a mode-switching wrapper for exactly the other names that resolve
    to an abstract method on [Super]; so nothing is left abstract on the
    stub class. *)
Theorem stub_wraps_abstract_methods_of_first_base
    (base Super : Class) (rest : list Class) (target : SiloMode) :
  cls_bases base = Super :: rest ->
  exists stub,
    CreateStubFromBase base target = Some stub
    /\ cls_bases stub = [Super]
    /\ cls_name stub = "Stub" +:+ cls_name Super
    /\ cls_dict stub !! "close" = Some CloseForwarder
    /\ cls_dict stub !! "__init__" = Some InitFromBacking
    /\ (forall name,
          name ∈ wrapped_methods stub ->
          cls_dict stub !! name = Some (Wrapper name target))
    /\ wrapped_methods stub
       = abstract_methods Super ∖ {["close"; "__init__"]}
    /\ abstract_methods stub = ∅.
Proof.
  intros Hb.
  assert (Hex : exists stub, CreateStubFromBase base target = Some stub).
  { unfold CreateStubFromBase. rewrite Hb. eauto. }
  destruct Hex as [stub Hstub]. exists stub.
  pose proof (fun name => stub_dict_lookup base Super rest target stub name Hb Hstub)
    as Hlook.
  assert (Hshape : cls_bases stub = [Super]
                   /\ cls_name stub = "Stub" +:+ cls_name Super
                   /\ cls_mro_tail stub = cls_dict Super :: cls_mro_tail Super).
  { revert Hstub. unfold CreateStubFromBase. rewrite Hb. by intros [= <-]. }
  destruct Hshape as (Hbases & Hname & Hmro).
  split; [done |]. split; [done |]. split; [done |].
  split; [by rewrite Hlook |]. split; [by rewrite Hlook |].
  split.
  { intros name (n & t & Hw)%wrapped_methods_spec. rewrite Hlook in *.
    repeat case_decide; congruence. }
  split.
  { apply set_eq. intros name.
    rewrite wrapped_methods_spec, elem_of_difference, abstract_methods_spec.
    rewrite Hlook. split.
    - intros (n & t & Hw). repeat case_decide; try discriminate.
      split; [done |]. by apply not_lifecycle_name.
    - intros [Hab [Hc Hi]%not_lifecycle_name].
      rewrite decide_False by done.
      rewrite decide_False by done.
      rewrite decide_True by done. eauto. }
  apply set_eq. intros name. rewrite abstract_methods_spec.
  split; [| by intros ?%not_elem_of_empty]. intros Hab. exfalso.
  assert (class_attrs stub !! name =
          match cls_dict stub !! name with
          | Some m => Some m
          | None => class_attrs Super !! name
          end) as Hattrs.
  { destruct stub as [n b d t]. simpl in *. subst t.
    change (class_attrs (mkClass n b d (cls_dict Super :: cls_mro_tail Super)))
      with (d ∪ class_attrs Super).
    destruct (d !! name) as [m |] eqn:E.
    - by apply lookup_union_Some_l.
    - by apply lookup_union_r. }
  rewrite Hattrs, Hlook in Hab.
  repeat case_decide; congruence.
Qed.

End SynthesisCorrect.

Lemma stub_wraps_abstract_methods_of_first_base_witness :
  exists stub,
    CreateStubFromBase DatabaseBackedUserService REGION = Some stub
    /\ cls_bases stub = [UserService]
    /\ cls_name stub = "Stub" +:+ cls_name UserService
    /\ cls_dict stub !! "close" = Some CloseForwarder
    /\ cls_dict stub !! "__init__" = Some InitFromBacking
    /\ (forall name,
          name ∈ wrapped_methods stub ->
          cls_dict stub !! name = Some (Wrapper name REGION))
    /\ wrapped_methods stub
       = abstract_methods UserService ∖ {["close"; "__init__"]}
    /\ abstract_methods stub = ∅.
Proof.
  apply (stub_wraps_abstract_methods_of_first_base
           DatabaseBackedUserService UserService [] REGION).
  reflexivity.
Defined.

(** C9 as worded fails: the class handed to [CreateStubFromBase] is not the
    one that is introspected.  Given the concrete class, which has no
    abstract method left, the stub gets a wrapper for [get_user]; given the
    abstract class [UserService] itself, whose implementations must provide
    [get_user], the stub derives from [InterfaceWithLifecycle] and has no
    [get_user] at all. *)
Lemma stub_does_not_introspect_given_class :
  (exists stub,
     CreateStubFromBase DatabaseBackedUserService REGION = Some stub
     /\ "get_user" ∈ wrapped_methods stub
     /\ "get_user" ∉ abstract_methods DatabaseBackedUserService)
  /\ (exists stub,
        CreateStubFromBase UserService REGION = Some stub
        /\ "get_user" ∈ abstract_methods UserService
        /\ ("get_user" ∉ wrapped_methods stub)
        /\ class_attrs stub !! "get_user" = None
        /\ cls_bases stub = [InterfaceWithLifecycle]).
Proof.
  split.
  - eexists. split; [reflexivity |]. split.
    + apply wrapped_methods_spec. exists "get_user". exists REGION. by vm_compute.
    + rewrite abstract_methods_spec. by vm_compute.
  - eexists. split; [reflexivity |]. split.
    + rewrite abstract_methods_spec. by vm_compute.
    + split; [| split; [by vm_compute | reflexivity]].
      rewrite wrapped_methods_spec. intros (n & t & H).
      vm_compute in H. discriminate.
Qed.


(** * Further properties of the module *)

(** ** Teardown of all modes, and what teardown leaves alone *)

Lemma emit_all_empty (s : State) : emit_all [] s = s.
Proof. destruct s; unfold emit_all; simpl. by rewrite app_nil_r. Qed.

Lemma emit_all_twice (evs1 evs2 : list Event) (s : State) :
  emit_all evs2 (emit_all evs1 s) = emit_all (evs1 ++ evs2) s.
Proof. unfold emit_all; simpl. by rewrite <- app_assoc. Qed.

Lemma for_each_close_returns (xs : list Inst) (s : State) :
  Forall (fun i => close_returns i = true) xs ->
  for_each inst_close xs s = (Ok tt, emit_all (flat_map close_events xs) s).
Proof.
  revert s. induction xs as [| x rest IH]; intros s Hall.
  - simpl. by rewrite emit_all_empty.
  - apply Forall_cons in Hall as [Hx Hrest].
    cbn [for_each flat_map]. unfold bind. rewrite inst_close_spec, Hx.
    rewrite (IH _ Hrest), emit_all_twice. reflexivity.
Qed.

Lemma for_each_close_shape (xs : list Inst) (s : State) :
  exists evs, (for_each inst_close xs s).2 = emit_all evs s.
Proof.
  revert s. induction xs as [| x rest IH]; intros s.
  - exists []. simpl. by rewrite emit_all_empty.
  - cbn [for_each]. unfold bind. rewrite inst_close_spec.
    destruct (close_returns x).
    + destruct (IH (emit_all (close_events x) s)) as [evs Hevs].
      exists (close_events x ++ evs). by rewrite Hevs, emit_all_twice.
    + by exists (close_events x).
Qed.

(** [close] changes the singletons map and the trace, nothing else. *)
Lemma close_shape (mode : option SiloMode) (s : State) :
  exists evs,
    (close mode s).2 =
      emit_all evs
        (set_singleton
           (match mode with
            | Some k => <[k := None]> (_singleton (disp s))
            | None => ∅
            end) s).
Proof.
  destruct mode as [k |].
  - rewrite close_mode_spec. destruct (if_truthy _) as [e |].
    + unfold bind. rewrite inst_close_spec. exists (close_events e).
      by destruct (close_returns e).
    + exists []. simpl. by rewrite emit_all_empty.
  - rewrite close_all_spec. apply for_each_close_shape.
Qed.

Lemma cached_instances_spec (m : gmap SiloMode (option Inst)) (i : Inst) :
  i ∈ cached_instances m <-> exists k, m !! k = Some (Some i).
Proof.
  unfold cached_instances. rewrite list_elem_of_omap. split.
  - intros ([k o] & Hin & Ho). simpl in Ho. subst o.
    exists k. by apply elem_of_map_to_list in Hin.
  - intros [k Hk]. exists (k, Some i). split; [| done].
    by apply elem_of_map_to_list.
Qed.

(** X1.  [close()] without a mode, when the [close()] of every cached
    instance returns: it returns, the map is empty afterwards, and the
    [close()] of every cached value other than None has been entered,
    also of an instance that evaluates as false, which [close(mode)]
    would have skipped.  What the run adds to the trace is, in some order,
    one [close()] call for each cached instance. *)
Theorem close_all_closes_every_instance (s : State) :
  (forall k i, _singleton (disp s) !! k = Some (Some i) -> close_returns i = true) ->
  exists s' evs,
    close None s = (Ok tt, s')
    /\ _singleton (disp s') = ∅
    /\ trace s' = trace s ++ evs
    /\ evs ≡ₚ flat_map close_events (cached_instances (_singleton (disp s)))
    /\ (forall k i,
          _singleton (disp s) !! k = Some (Some i) ->
          EvClose (oid_of i) ∈ evs).
Proof.
  intros Hret.
  assert (Hall : Forall (fun i => close_returns i = true)
                        (cached_instances (_singleton (disp s)))).
  { apply Forall_forall. intros i [k Hk]%cached_instances_spec. eauto. }
  eexists _, _. split.
  { rewrite close_all_spec. apply (for_each_close_returns _ _ Hall). }
  split; [reflexivity |]. split; [reflexivity |]. split; [reflexivity |].
  intros k i Hk.
  apply list_elem_of_In, in_flat_map. exists i. split.
  - apply list_elem_of_In, cached_instances_spec. eauto.
  - rewrite close_events_oids. destruct i; simpl; auto.
Qed.

Lemma close_all_closes_every_instance_witness :
  exists s' evs,
    close None state_two = (Ok tt, s')
    /\ _singleton (disp s') = ∅
    /\ trace s' = trace state_two ++ evs
    /\ evs ≡ₚ flat_map close_events
                (cached_instances (_singleton (disp state_two)))
    /\ (forall k i,
          _singleton (disp state_two) !! k = Some (Some i) ->
          EvClose (oid_of i) ∈ evs).
Proof.
  apply (close_all_closes_every_instance state_two).
  intros k i. destruct k; vm_compute; intros [= <-]; reflexivity.
Defined.

(** X2.  After [close(mode)] or [close()], whatever their outcome, an
    access in a mode with a registered constructor does not get the closed
    instance back: the constructor is called and the access is forwarded to
    its fresh instance, which takes the slot. *)
Theorem dispatch_after_close_constructs
    (s : State) (mode : option SiloMode) (con : Factory) (item : string) :
  (mode = None \/ mode = Some (get_current_mode s)) ->
  _constructors (disp s) !! get_current_mode s = Some con ->
  let s1 := (close mode s).2 in
  let inst := (build con (next_oid s)).1 in
  __getattr__ item s1 = (Ok (AttrOf inst item), constructed con s1)
  /\ _singleton (disp (constructed con s1)) !! get_current_mode s
     = Some (Some inst)
  /\ trace (constructed con s1)
     = trace s1 ++ [EvConstruct (get_current_mode s) (oid_of inst)]
  /\ next_oid s <= oid_of inst.
Proof.
  intros Hmode Hcon s1 inst.
  destruct (close_shape mode s) as [evs Hs1]. fold s1 in Hs1.
  assert (Hcur : get_current_mode s1 = get_current_mode s) by by rewrite Hs1.
  assert (Hnext : next_oid s1 = next_oid s) by by rewrite Hs1.
  assert (Hcons : _constructors (disp s1) = _constructors (disp s))
    by by rewrite Hs1.
  assert (Hslot : if_truthy (dict_get (_singleton (disp s1)) (get_current_mode s1))
                  = None).
  { rewrite Hcur, Hs1. simpl. destruct Hmode as [-> | ->].
    - unfold dict_get. by rewrite lookup_empty.
    - by rewrite dict_get_insert_eq. }
  split.
  { unfold inst. rewrite <- Hnext. apply getattr_miss; [done |].
    by rewrite Hcur, Hcons. }
  split.
  { rewrite constructed_singleton, Hcur, Hnext. apply lookup_insert_eq. }
  split.
  { by rewrite constructed_trace, Hcur, Hnext. }
  apply build_fresh.
Qed.

Lemma dispatch_after_close_constructs_witness :
  __getattr__ "get_user" (close None state_two).2
  = (Ok (AttrOf (build (MkReal true false) (next_oid state_two)).1 "get_user"),
     constructed (MkReal true false) (close None state_two).2).
Proof.
  apply (dispatch_after_close_constructs state_two None (MkReal true false)
           "get_user" (or_introl eq_refl) eq_refl).
Defined.



(** X4.  An access on the dispatcher never enters the [close()] of any
    instance: the close that precedes a construction only ever finds a slot
    that is empty, None or falsy, and closes nothing.  The trace grows by
    at most the one construction. *)
Theorem dispatch_never_closes (s : State) (item : string) :
  (forall n, close_count n (trace (__getattr__ item s).2) = close_count n (trace s))
  /\ (trace (__getattr__ item s).2 = trace s
      \/ exists n,
           trace (__getattr__ item s).2
           = trace s ++ [EvConstruct (get_current_mode s) n]).
Proof.
  destruct (if_truthy (dict_get (_singleton (disp s)) (get_current_mode s)))
    as [impl |] eqn:Eslot.
  - assert (__getattr__ item s = (Ok (AttrOf impl item), s)) as ->.
    { unfold __getattr__, bind, get. by rewrite Eslot. }
    split; [done | by left].
  - destruct (_constructors (disp s) !! get_current_mode s) as [con |] eqn:Econ.
    + rewrite (getattr_miss s con item Eslot Econ). simpl.
      rewrite constructed_trace. split.
      { intros n. unfold close_count. rewrite List.filter_app, length_app.
        simpl. lia. }
      right; eauto.
    + rewrite (getattr_none s item Eslot Econ). simpl.
      split; [done | by left].
Qed.

(** ** Scoped replacement: nesting, failure, other modes *)

Lemma with_replacement_run {A} (service : option Inst) (mode : SiloMode)
    (body : M A) (s : State) (r : Res A) (s_b : State) :
  body (set_singleton (<[mode := service]> (_singleton (disp s))) s) = (r, s_b) ->
  with_replacement service mode body s =
    match with_replacement_finally mode (dict_get (_singleton (disp s)) mode) s_b with
    | (Ok _, s2) => (r, s2)
    | (Raise e, s2) => (Raise e, s2)
    end.
Proof.
  intros Hbody. rewrite with_replacement_spec. unfold try_finally.
  by rewrite Hbody.
Qed.

Lemma last_oids_real_oid (i : Inst) : List.last (oids i) 0 = real_oid i.
Proof.
  induction i as [k t r | n bt m b IH]; [done |].
  cbn [oids real_oid]. rewrite <- IH. by destruct b.
Qed.

Lemma build_close_returns (f : Factory) (n : nat) :
  close_returns (build f n).1 = factory_close_returns f.
Proof.
  revert n. induction f as [t r | g IH m bt]; intros n; simpl; [done |].
  specialize (IH n). by destruct (build g n).
Qed.

(** X5.  Replacements of one mode nest as a stack.  With replacements [a]
    and [b] that evaluate as true and whose [close()] returns: accesses in
    the outer scope go to [a], in the inner scope to [b], after the inner
    scope to [a] again; [b] is closed when the inner scope ends, [a] when
    the outer one ends, and the slot then holds what it held before, be it
    an instance, None or nothing. *)
Theorem with_replacement_nests
    (s : State) (A : SiloMode) (a b : Inst)
    (items1 items2 items3 : list string) :
  get_current_mode s = A ->
  truthy a = true -> truthy b = true ->
  close_returns a = true -> close_returns b = true ->
  nested_scopes a b A items1 items2 items3 s =
    (Ok (map (AttrOf a) items1, map (AttrOf b) items2, map (AttrOf a) items3),
     emit_all (close_events b ++ close_events a)
       (set_singleton
          (<[A := dict_get (_singleton (disp s)) A]> (_singleton (disp s))) s)).
Proof.
  intros Hcur Hta Htb Hca Hcb. unfold nested_scopes.
  set (m := _singleton (disp s)).
  set (s1 := set_singleton (<[A := Some a]> m) s).
  set (s2 := set_singleton (<[A := Some b]> (<[A := Some a]> m)) s1).
  set (s3 := emit_all (close_events b)
               (set_singleton (<[A := Some a]> (_singleton (disp s2))) s2)).
  assert (Hinner : with_replacement (Some b) A (calls items2) s1
                   = (Ok (map (AttrOf b) items2), s3)).
  { rewrite (with_replacement_run (Some b) A (calls items2) s1
               (Ok (map (AttrOf b) items2)) s2).
    - rewrite (finally_live A _ s2 b); [| apply dict_get_insert_eq | done].
      rewrite Hcb. unfold s1 at 1. simpl. by rewrite dict_get_insert_eq.
    - apply (calls_hit s2 b); [| done].
      change (get_current_mode s2) with (get_current_mode s).
      rewrite Hcur. apply dict_get_insert_eq. }
  assert (Hbody :
    (r1 <- calls items1 ;;
     r2 <- with_replacement (Some b) A (calls items2) ;;
     r3 <- calls items3 ;;
     ret (r1, r2, r3)) s1
    = (Ok (map (AttrOf a) items1, map (AttrOf b) items2, map (AttrOf a) items3),
       s3)).
  { unfold bind at 1. rewrite (calls_hit s1 a items1); [| | done].
    2:{ change (get_current_mode s1) with (get_current_mode s).
        rewrite Hcur. apply dict_get_insert_eq. }
    unfold bind at 1. rewrite Hinner.
    unfold bind at 1. rewrite (calls_hit s3 a items3); [done | | done].
    change (get_current_mode s3) with (get_current_mode s).
    rewrite Hcur. apply dict_get_insert_eq. }
  rewrite (with_replacement_run _ _ _ s _ s3 Hbody).
  rewrite (finally_live A _ s3 a); [| apply dict_get_insert_eq | done].
  rewrite Hca. f_equal.
  unfold s3, s2, s1, emit_all, set_singleton, set_disp; simpl.
  rewrite !insert_insert_eq. by rewrite <- app_assoc.
Qed.

Lemma with_replacement_nests_witness :
  nested_scopes (Real 2 true false) (Real 3 true false) MONOLITH
    ["get_user"] ["get_org"; "get_user"] ["get_many"] state_two
  = (Ok (map (AttrOf (Real 2 true false)) ["get_user"],
         map (AttrOf (Real 3 true false)) ["get_org"; "get_user"],
         map (AttrOf (Real 2 true false)) ["get_many"]),
     emit_all (close_events (Real 3 true false) ++ close_events (Real 2 true false))
       (set_singleton
          (<[MONOLITH := dict_get (_singleton (disp state_two)) MONOLITH]>
             (_singleton (disp state_two))) state_two)).
Proof.
  apply (with_replacement_nests state_two MONOLITH (Real 2 true false)
           (Real 3 true false)); reflexivity.
Defined.

(** X6.  Inside [with_replacement(None, mode)] with a constructor
    registered for the mode, the first access constructs an instance and
    the later ones reuse it; when the scope ends, on either path, that
    instance is closed and the slot holds again what it held before the
    scope.  Stated for constructors whose instances evaluate as true and
    whose [close()] returns. *)
Theorem with_replacement_none_uses_constructor
    (s : State) (A : SiloMode) (con : Factory)
    (item : string) (items : list string) (exn : option Exn) :
  get_current_mode s = A ->
  _constructors (disp s) !! A = Some con ->
  factory_truthy con = true ->
  factory_close_returns con = true ->
  let inst := (build con (next_oid s)).1 in
  exists s',
    with_replacement None A (scope_body (item :: items) exn) s =
      (match exn with
       | Some e => Raise e
       | None => Ok (map (AttrOf inst) (item :: items))
       end, s')
    /\ _singleton (disp s')
       = <[A := dict_get (_singleton (disp s)) A]> (_singleton (disp s))
    /\ trace s' = trace s ++ EvConstruct A (oid_of inst) :: close_events inst.
Proof.
  intros Hcur Hcon Ht Hc inst.
  set (s_in := set_singleton (<[A := None]> (_singleton (disp s))) s).
  set (s_c := constructed con s_in).
  assert (Hcin : get_current_mode s_in = A) by exact Hcur.
  assert (Hg : __getattr__ item s_in = (Ok (AttrOf inst item), s_c)).
  { apply (getattr_miss s_in con item); rewrite Hcin; [| done].
    unfold s_in. simpl. by rewrite dict_get_insert_eq. }
  assert (Hslot : dict_get (_singleton (disp s_c)) A = Some inst).
  { unfold s_c. rewrite constructed_singleton, Hcin. apply dict_get_insert_eq. }
  assert (Hti : truthy inst = true) by (unfold inst; by rewrite build_truthy).
  assert (Hcc : get_current_mode s_c = A).
  { unfold s_c. by rewrite constructed_mode. }
  assert (Hbody : scope_body (item :: items) exn s_in =
    (match exn with
     | Some e => Raise e
     | None => Ok (map (AttrOf inst) (item :: items))
     end, s_c)).
  { unfold scope_body. cbn [calls]. unfold bind at 1 2. rewrite Hg.
    unfold bind at 1. rewrite (calls_hit s_c inst items); [| by rewrite Hcc | done].
    unfold bind, ret, raise. by destruct exn. }
  assert (Hci : close_returns inst = true).
  { unfold inst. by rewrite build_close_returns. }
  exists (emit_all (close_events inst)
            (set_singleton
               (<[A := dict_get (_singleton (disp s)) A]> (_singleton (disp s_c)))
               s_c)).
  split.
  { rewrite (with_replacement_run _ _ _ s _ s_c Hbody).
    rewrite (finally_live A _ s_c inst Hslot Hti), Hci. reflexivity. }
  split.
  - simpl. unfold s_c. rewrite constructed_singleton, Hcin.
    unfold s_in. simpl. by rewrite !insert_insert_eq.
  - simpl. unfold s_c. rewrite constructed_trace, Hcin.
    unfold s_in. simpl. by rewrite <- app_assoc.
Qed.

Lemma with_replacement_none_uses_constructor_witness :
  exists s',
    with_replacement None MONOLITH
      (scope_body ("get_user" :: ["get_org"]) (Some (UserError 3))) state_two =
      (Raise (UserError 3), s')
    /\ _singleton (disp s')
       = <[MONOLITH := dict_get (_singleton (disp state_two)) MONOLITH]>
           (_singleton (disp state_two))
    /\ trace s'
       = trace state_two
         ++ EvConstruct MONOLITH
              (oid_of (build (MkReal true false) (next_oid state_two)).1)
            :: close_events (build (MkReal true false) (next_oid state_two)).1.
Proof.
  apply (with_replacement_none_uses_constructor state_two MONOLITH
           (MkReal true false) "get_user" ["get_org"] (Some (UserError 3)));
    reflexivity.
Defined.



(** X8.  A replacement that the body itself closes with [close(mode)] is
    not closed a second time when the scope ends: the run leaves the same
    state as a scope with an empty body, and the replacement's [close()]
    was entered once. *)
Theorem with_replacement_no_double_close
    (s : State) (A : SiloMode) (stub : Inst) :
  truthy stub = true ->
  close_returns stub = true ->
  with_replacement (Some stub) A (close (Some A)) s
  = with_replacement (Some stub) A (ret tt) s
  /\ trace (with_replacement (Some stub) A (close (Some A)) s).2
     = trace s ++ close_events stub.
Proof.
  intros Ht Hc.
  set (s_in := set_singleton (<[A := Some stub]> (_singleton (disp s))) s).
  assert (Hin : dict_get (_singleton (disp s_in)) A = Some stub)
    by apply dict_get_insert_eq.
  assert (Hempty : with_replacement (Some stub) A (ret tt) s =
    (Ok tt,
     emit_all (close_events stub)
       (set_singleton
          (<[A := dict_get (_singleton (disp s)) A]> (_singleton (disp s))) s))).
  { rewrite (with_replacement_run _ _ (ret tt) s (Ok tt) s_in eq_refl).
    rewrite (finally_live A _ s_in stub Hin Ht), Hc. f_equal.
    unfold s_in, emit_all, set_singleton, set_disp; simpl.
    by rewrite insert_insert_eq. }
  assert (Hclosing : with_replacement (Some stub) A (close (Some A)) s =
    (Ok tt,
     emit_all (close_events stub)
       (set_singleton
          (<[A := dict_get (_singleton (disp s)) A]> (_singleton (disp s))) s))).
  { rewrite (with_replacement_run _ _ (close (Some A)) s (Ok tt)
               (emit_all (close_events stub)
                  (set_singleton (<[A := None]> (_singleton (disp s_in))) s_in))).
    - rewrite finally_empty.
      + f_equal. unfold s_in, emit_all, set_singleton, set_disp; simpl.
        by rewrite !insert_insert_eq.
      + simpl. by rewrite dict_get_insert_eq.
    - fold s_in. rewrite (close_mode_live A s_in stub Hin Ht), Hc. reflexivity. }
  rewrite Hclosing, Hempty. split; reflexivity.
Qed.

Lemma with_replacement_no_double_close_witness :
  with_replacement (Some (Real 2 true false)) MONOLITH (close (Some MONOLITH))
    state_two
  = with_replacement (Some (Real 2 true false)) MONOLITH (ret tt) state_two.
Proof.
  apply (proj1 (with_replacement_no_double_close state_two MONOLITH
                  (Real 2 true false) eq_refl eq_refl)).
Defined.



(** ** Constructed instances and their lifecycle *)

Lemma build_oids (f : Factory) (n : nat) :
  NoDup (oids (build f n).1)
  /\ (forall x, x ∈ oids (build f n).1 -> n <= x < (build f n).2).
Proof.
  revert n. induction f as [t r | g IH m bt]; intros n.
  - simpl. split.
    + apply NoDup_singleton.
    + intros x ->%list_elem_of_singleton. lia.
  - specialize (IH n). pose proof (build_fresh g n) as Hf. simpl.
    destruct (build g n) as [b n1]. simpl in *.
    destruct IH as [Hnd Hrange]. split.
    + apply NoDup_cons. split; [| done].
      intros Hin. apply Hrange in Hin. lia.
    + intros x [-> | Hin]%elem_of_cons; [lia |].
      apply Hrange in Hin. lia.
Qed.

Lemma close_count_nodup (n : nat) (l : list nat) :
  NoDup l -> n ∈ l -> close_count n (map EvClose l) = 1.
Proof.
  induction l as [| x l IH]; intros Hnd Hin.
  - by apply elem_of_nil in Hin.
  - apply NoDup_cons in Hnd as [Hnotin Hnd].
    unfold close_count. cbn [map List.filter].
    destruct (decide (x = n)) as [-> | Hne].
    + rewrite bool_decide_eq_true_2 by done. cbn [length]. f_equal.
      by apply close_count_notin.
    + rewrite bool_decide_eq_false_2 by congruence.
      apply elem_of_cons in Hin as [-> | Hin]; [done |].
      by apply IH.
Qed.

(** X10.  An instance the dispatcher constructed and then closes with
    [close(mode)]: the constructor ran once, and the [close()] of the
    instance and of every object it wraps (the backing instances of
    [stubbed] constructors) was entered exactly once; the objects are new,
    none has an identity that existed before the access; the slot holds
    None afterwards. *)
Theorem constructed_instance_closed_once
    (s : State) (con : Factory) (item : string) :
  if_truthy (dict_get (_singleton (disp s)) (get_current_mode s)) = None ->
  _constructors (disp s) !! get_current_mode s = Some con ->
  factory_truthy con = true ->
  factory_close_returns con = true ->
  let inst := (build con (next_oid s)).1 in
  exists s',
    (__getattr__ item ;;; close (Some (get_current_mode s))) s = (Ok tt, s')
    /\ trace s'
       = trace s ++ EvConstruct (get_current_mode s) (oid_of inst)
                    :: close_events inst
    /\ (forall n, n ∈ oids inst ->
          close_count n (close_events inst) = 1 /\ next_oid s <= n)
    /\ _singleton (disp s') !! get_current_mode s = Some None.
Proof.
  intros Hslot Hcon Ht Hc inst.
  set (s_c := constructed con s).
  assert (Hget : dict_get (_singleton (disp s_c)) (get_current_mode s) = Some inst).
  { unfold s_c. rewrite constructed_singleton. apply dict_get_insert_eq. }
  assert (Hti : truthy inst = true) by (unfold inst; by rewrite build_truthy).
  assert (Hci : close_returns inst = true).
  { unfold inst. by rewrite build_close_returns. }
  eexists. split.
  { unfold bind. rewrite (getattr_miss s con item Hslot Hcon). fold s_c.
    rewrite (close_mode_live _ s_c inst Hget Hti), Hci. reflexivity. }
  split.
  { simpl. unfold s_c. rewrite constructed_trace. by rewrite <- app_assoc. }
  split.
  { intros n Hin. destruct (build_oids con (next_oid s)) as [Hnd Hrange].
    split.
    - rewrite close_events_oids. by apply close_count_nodup.
    - apply Hrange in Hin. lia. }
  simpl. apply lookup_insert_eq.
Qed.

Lemma constructed_instance_closed_once_witness :
  exists s',
    (__getattr__ "get_user" ;;; close (Some (get_current_mode state0)))
      (set_disp (mkDispatcher {[MONOLITH := Stubbed (MkReal true false) REGION true]} ∅)
         state0)
    = (Ok tt, s')
    /\ trace s'
       = [] ++ EvConstruct MONOLITH
                 (oid_of (build (Stubbed (MkReal true false) REGION true) 0).1)
               :: close_events (build (Stubbed (MkReal true false) REGION true) 0).1
    /\ (forall n, n ∈ oids (build (Stubbed (MkReal true false) REGION true) 0).1 ->
          close_count n
            (close_events (build (Stubbed (MkReal true false) REGION true) 0).1) = 1
          /\ 0 <= n)
    /\ _singleton (disp s') !! MONOLITH = Some None.
Proof.
  apply (constructed_instance_closed_once
           (set_disp (mkDispatcher {[MONOLITH := Stubbed (MkReal true false) REGION true]} ∅)
              state0)
           (Stubbed (MkReal true false) REGION true) "get_user"); reflexivity.
Defined.

(** ** Scoped acquisitions, run *)

Lemma try_finally_modify {A} (body : M A) (f : State -> State) (s : State) :
  try_finally body (modify f) s = ((body s).1, f (body s).2).
Proof. unfold try_finally, modify. by destruct (body s). Qed.

Lemma exit_context_run {A} (body : M A) (s : State) :
  exit_single_process_silo_context body s =
    ((body (set_single_process_mode None s)).1,
     set_single_process_mode (single_process_mode s)
       (body (set_single_process_mode None s)).2).
Proof.
  unfold exit_single_process_silo_context, bind, get, ret, modify. simpl.
  apply try_finally_modify.
Qed.

Lemma enter_context_run {A} (mode : SiloMode) (body : M A) (s : State) :
  enter_single_process_silo_context mode body s =
    ((body (set_single_process_mode (Some mode) s)).1,
     set_single_process_mode (single_process_mode s)
       (body (set_single_process_mode (Some mode) s)).2).
Proof.
  unfold enter_single_process_silo_context, bind, get, ret, modify. simpl.
  apply try_finally_modify.
Qed.

Lemma applied_to_request_run {A} (ctx : nat) (body : M A) (s : State) :
  applied_to_request ctx body s =
    ((body (emit (EvAuthEnter ctx) s)).1,
     emit (EvAuthExit ctx) (body (emit (EvAuthEnter ctx) s)).2).
Proof.
  unfold applied_to_request, bind, modify. simpl. apply try_finally_modify.
Qed.

(** ** Stub classes: what they resolve, and what they depend on *)

Lemma class_attrs_stub (base : Class) (target : SiloMode) (stub Super : Class)
    (rest : list Class) (name : string) :
  cls_bases base = Super :: rest ->
  CreateStubFromBase base target = Some stub ->
  class_attrs stub !! name =
    match cls_dict stub !! name with
    | Some m => Some m
    | None => class_attrs Super !! name
    end.
Proof.
  intros Hb. unfold CreateStubFromBase. rewrite Hb. intros [= <-].
  match goal with
  | |- class_attrs (type_new ?n ?b ?ns) !! _ = _ =>
      change (class_attrs (type_new n b ns)) with (ns ∪ class_attrs b);
      cbn [type_new cls_dict]; destruct (ns !! name) as [m |] eqn:E
  end.
  - by apply lookup_union_Some_l.
  - by apply lookup_union_r.
Qed.

(** X13.  What an attribute name resolves to on a stub class made from
    [base], whose first base is [Super]: [__init__] and [close] are the
    stub's own; a name that is abstract on [Super] is the mode-switching
    wrapper of that name; every other name resolves as on [Super].  So a
    concrete method or attribute of [Super] is inherited as it is, without
    a wrapper, and what only [base] defines is not on the stub at all. *)
Theorem stub_attribute_resolution
    (base Super : Class) (rest : list Class) (target : SiloMode)
    (stub : Class) (name : string) :
  cls_bases base = Super :: rest ->
  CreateStubFromBase base target = Some stub ->
  class_attrs stub !! name =
    if decide (name = "__init__") then Some InitFromBacking
    else if decide (name = "close") then Some CloseForwarder
    else match class_attrs Super !! name with
         | Some Abstract => Some (Wrapper name target)
         | other => other
         end.
Proof.
  intros Hb Hstub.
  rewrite (class_attrs_stub base target stub Super rest name Hb Hstub).
  rewrite (stub_dict_lookup base Super rest target stub name Hb Hstub).
  repeat case_decide; try done.
  - match goal with H : _ = Some Abstract |- _ => by rewrite H end.
  - destruct (class_attrs Super !! name) as [[] |]; congruence.
Qed.

Lemma stub_attribute_resolution_witness :
  exists stub,
    CreateStubFromBase DatabaseBackedUserService REGION = Some stub
    /\ class_attrs stub !! "get_user" =
         if decide ("get_user" = "__init__") then Some InitFromBacking
         else if decide ("get_user" = "close") then Some CloseForwarder
         else match class_attrs UserService !! "get_user" with
              | Some Abstract => Some (Wrapper "get_user" REGION)
              | other => other
              end.
Proof.
  eexists. split; [reflexivity |].
  apply (stub_attribute_resolution DatabaseBackedUserService UserService []
           REGION _ "get_user" eq_refl eq_refl).
Defined.

(** X14.  [CreateStubFromBase] fails, with the IndexError of
    [__bases__[0]], exactly on a class without bases.  Its result depends
    only on the first base of the class it is given and on the target
    mode; so making a stub class from a stub class gives the stub class of
    the original first base: it derives from that base, not from the stub,
    and keeps nothing of the first stub's target mode. *)
Theorem stub_class_depends_on_first_base
    (base base' : Class) (target target' : SiloMode) :
  (CreateStubFromBase base target = None <-> cls_bases base = [])
  /\ (head (cls_bases base) = head (cls_bases base') ->
      CreateStubFromBase base target = CreateStubFromBase base' target)
  /\ (forall stub,
        CreateStubFromBase base target = Some stub ->
        CreateStubFromBase stub target' = CreateStubFromBase base target').
Proof.
  split; [| split].
  - unfold CreateStubFromBase. destruct (cls_bases base); by split.
  - unfold CreateStubFromBase.
    destruct (cls_bases base) as [| S1 r1], (cls_bases base') as [| S2 r2];
      simpl; intros [=]; by subst.
  - intros stub. unfold CreateStubFromBase at 1.
    destruct (cls_bases base) as [| Super rest] eqn:Hb; [done |].
    intros [= <-]. unfold CreateStubFromBase. by rewrite Hb.
Qed.

Lemma stub_class_depends_on_first_base_witness :
  CreateStubFromBase DatabaseBackedUserService REGION
  = CreateStubFromBase
      (type_new "RpcUserService" UserService {["get_user" := Concrete]}) REGION.
Proof.
  apply (proj1 (proj2 (stub_class_depends_on_first_base
           DatabaseBackedUserService
           (type_new "RpcUserService" UserService {["get_user" := Concrete]})
           REGION REGION))).
  reflexivity.
Defined.

(** ** Closing a stub *)

(** X15.  Closing a chain of stubs enters the [close()] of every wrapper,
    outermost first, and last that of the real instance; it raises exactly
    when the real instance's [close()] does, with that exception, and it
    changes nothing but the trace. *)
Theorem stub_close_forwards_down_the_chain (i : Inst) (s : State) :
  inst_close i s =
    (if close_returns i then Ok tt else Raise (CloseFailed (real_oid i)),
     emit_all (map EvClose (oids i)) s)
  /\ List.last (oids i) 0 = real_oid i
  /\ head (oids i) = Some (oid_of i).
Proof.
  split; [| split].
  - rewrite inst_close_spec, last_oids_real_oid, close_events_oids. reflexivity.
  - apply last_oids_real_oid.
  - by destruct i.
Qed.


(** ** Stub methods *)

Lemma bind_get {A} (k : State -> M A) (s : State) :
  bind get k s = k s s.
Proof. reflexivity. Qed.

Lemma bind_ret_unit {A} (k : M A) (s : State) :
  bind (ret tt) (fun _ => k) s = k s.
Proof. reflexivity. Qed.

Lemma bind_run_cb_observe {A} (b : Inst) (name : string) (k : M A) (s : State) :
  bind (run_cb CbObserve b name) (fun _ => k) s
  = k (emit (EvCb (oid_of b) name) s).
Proof. reflexivity. Qed.

Lemma bind_run_cb_raise {A} (b : Inst) (name : string) (e : Exn) (k : M A)
    (s : State) :
  bind (run_cb (CbRaise e) b name) (fun _ => k) s
  = (Raise e, emit (EvCb (oid_of b) name) s).
Proof. reflexivity. Qed.

(** On a stub class, a name that is abstract on the first base resolves
    to the wrapper of that name. *)
Lemma stub_class_wraps (base Super : Class) (rest : list Class)
    (target : SiloMode) (stub : Class) (name : string) :
  cls_bases base = Super :: rest ->
  CreateStubFromBase base target = Some stub ->
  class_attrs Super !! name = Some Abstract ->
  name <> "close" -> name <> "__init__" ->
  class_attrs stub !! name = Some (Wrapper name target).
Proof.
  intros Hb Hstub Hab Hc Hi.
  rewrite (class_attrs_stub base target stub Super rest name Hb Hstub).
  rewrite (stub_dict_lookup base Super rest target stub name Hb Hstub).
  rewrite decide_False by done. rewrite decide_False by done.
  by rewrite decide_True by done.
Qed.

Lemma stub_class_bases (base Super : Class) (rest : list Class)
    (target : SiloMode) :
  cls_bases base = Super :: rest ->
  exists stub, CreateStubFromBase base target = Some stub
               /\ cls_bases stub = [Super].
Proof. intros Hb. unfold CreateStubFromBase. rewrite Hb. eauto. Qed.

Section StubMethods.

Context {Args Value : Type}.
Variable real_class : nat -> Class.
Variable binds : nat -> string -> Args -> bool.
Variable auth_context_arg : nat -> string -> Args -> option nat.
Variable method_body : nat -> string -> Args -> M Value.
Variable none_value : Value.

Local Abbreviation call :=
  (call_method real_class binds auth_context_arg method_body none_value).
Local Abbreviation look := (lookup_method real_class).
Local Abbreviation callargs := (getcallargs real_class binds auth_context_arg).
Local Abbreviation body_state := (stub_body_state auth_context_arg).
Local Abbreviation unwind := (stub_unwind auth_context_arg).
Local Abbreviation enter := (wrapper_enter auth_context_arg).
Local Abbreviation leave := (wrapper_exit auth_context_arg).

(** Along a chain of stubs the first base stays that of the real class. *)
Lemma type_of_chain (i : Inst) (Super : Class) (rest : list Class) :
  cls_bases (real_class (real_oid i)) = Super :: rest ->
  exists c rest', type_of real_class i = Some c /\ cls_bases c = Super :: rest'.
Proof.
  intros Hb. induction i as [k t r | n bt target b IH].
  - exists (real_class k), rest. by split.
  - destruct (IH Hb) as (cb & rest' & Hcb & Hbases).
    destruct (stub_class_bases cb Super rest' target Hbases) as (c & Hc & Hcb').
    exists c, []. cbn [type_of]. by rewrite Hcb.
Qed.

(** A stub over a chain whose real class derives from [Super] wraps the
    names that are abstract on [Super]. *)
Lemma lookup_wrapped (n : nat) (bt : bool) (target : SiloMode) (b : Inst)
    (Super : Class) (rest : list Class) (name : string) :
  cls_bases (real_class (real_oid b)) = Super :: rest ->
  class_attrs Super !! name = Some Abstract ->
  name <> "close" -> name <> "__init__" ->
  look (StubInst n bt target b) name = Ok (Wrapper name target).
Proof.
  intros Hb Hab Hc Hi.
  destruct (type_of_chain b Super rest Hb) as (cb & rest' & Hcb & Hbases).
  destruct (stub_class_bases cb Super rest' target Hbases) as (c & Hc' & _).
  unfold lookup_method. cbn [type_of]. rewrite Hcb, Hc'.
  by rewrite (stub_class_wraps cb Super rest' target c name Hbases Hc' Hab Hc Hi).
Qed.

(** One wrapper, run. *)
Lemma wrapper_run (n : nat) (bt : bool) (target : SiloMode) (b : Inst)
    (name : string) (args : Args) (s : State) (auth : option nat) :
  look (StubInst n bt target b) name = Ok (Wrapper name target) ->
  (hc_test_stub_cb s = None \/ hc_test_stub_cb s = Some CbObserve) ->
  callargs b name args = Ok auth ->
  wrapper_ctx auth_context_arg b name args = default default_auth_context auth ->
  call (StubInst n bt target b) name args s =
    ((call b name args (enter target b name args s)).1,
     leave b name args s (call b name args (enter target b name args s)).2).
Proof.
  intros Hlook Hcb Hargs Hctx.
  cbn [call_method]. rewrite Hlook, exit_context_run.
  unfold wrapper_enter, wrapper_exit. rewrite Hctx, Hargs, !bind_get.
  cbn [hc_test_stub_cb set_single_process_mode].
  destruct Hcb as [Hcb | Hcb]; rewrite Hcb.
  - rewrite !bind_ret_unit, applied_to_request_run, enter_context_run.
    reflexivity.
  - rewrite !bind_run_cb_observe, applied_to_request_run, enter_context_run.
    reflexivity.
Qed.

(** A plain method of a real instance, run. *)
Lemma real_call_run (k : nat) (t r : bool) (name : string) (args : Args)
    (s : State) :
  class_attrs (real_class k) !! name = Some Concrete ->
  name <> "close" ->
  binds k name args = true ->
  call (Real k t r) name args s =
    method_body k name args (emit (EvCall k name (get_current_mode s)) s).
Proof.
  intros Hres Hc Hbind. cbn [call_method]. unfold lookup_method.
  cbn [type_of oid_of]. rewrite Hres, Hbind.
  rewrite decide_False by done. reflexivity.
Qed.

Lemma callargs_real (k : nat) (t r : bool) (name : string) (args : Args) :
  class_attrs (real_class k) !! name = Some Concrete ->
  callargs (Real k t r) name args =
    if binds k name args then Ok (auth_context_arg k name args)
    else Raise TypeError.
Proof.
  intros Hres. unfold getcallargs, lookup_method. cbn [type_of oid_of].
  by rewrite Hres.
Qed.

(** A wrapped method of a stub over a real instance, run. *)
Lemma wrapped_call_over_real (n k : nat) (bt t r : bool) (B : SiloMode)
    (name : string) (args : Args) (s : State) :
  look (StubInst n bt B (Real k t r)) name = Ok (Wrapper name B) ->
  class_attrs (real_class k) !! name = Some Concrete ->
  name <> "close" ->
  (hc_test_stub_cb s = None \/ hc_test_stub_cb s = Some CbObserve) ->
  binds k name args = true ->
  call (StubInst n bt B (Real k t r)) name args s =
    ((method_body k name args (body_state B k name args s)).1,
     unwind k name args s (method_body k name args (body_state B k name args s)).2).
Proof.
  intros Hlook Hres Hc Hcb Hbind.
  rewrite (wrapper_run n bt B (Real k t r) name args s
             (auth_context_arg k name args) Hlook Hcb).
  - rewrite (real_call_run k t r name args _ Hres Hc Hbind). reflexivity.
  - by rewrite (callargs_real k t r name args Hres), Hbind.
  - reflexivity.
Qed.

End StubMethods.

Section StubMethodsCorrect.

Context {Args Value : Type}.
Variable real_class : nat -> Class.
Variable binds : nat -> string -> Args -> bool.
Variable auth_context_arg : nat -> string -> Args -> option nat.
Variable method_body : nat -> string -> Args -> M Value.
Variable none_value : Value.

Local Abbreviation call :=
  (call_method real_class binds auth_context_arg method_body none_value).
Local Abbreviation look := (lookup_method real_class).
Local Abbreviation callargs := (getcallargs real_class binds auth_context_arg).
Local Abbreviation body_state := (stub_body_state auth_context_arg).
Local Abbreviation unwind := (stub_unwind auth_context_arg).


(** X11.  Stubs compose.  Through a chain of stubs of any depth over a real
    instance, for an operation that is abstract on the first base of the
    real class (other than [close] and [__init__]) and that the real class
    implements, with a test hook that is unset or returns and arguments
    that bind to the real method: every stub of the chain wraps the
    operation, the real method body starts in the state the wrappers
    prepared on the way down, whose current mode is the target of the
    innermost stub, and the outcome of the outermost call, value or
    exception, is the body's; a call on a stub leaves the scoped mode
    override as it found it. *)
Theorem stub_chain_runs_in_innermost_target
    (i : Inst) (Super : Class) (rest : list Class)
    (name : string) (args : Args) (s : State) :
  cls_bases (real_class (real_oid i)) = Super :: rest ->
  class_attrs Super !! name = Some Abstract ->
  name <> "close" -> name <> "__init__" ->
  class_attrs (real_class (real_oid i)) !! name = Some Concrete ->
  (hc_test_stub_cb s = None \/ hc_test_stub_cb s = Some CbObserve) ->
  binds (real_oid i) name args = true ->
  let s_b := chain_enter auth_context_arg i name args s in
  call i name args s =
    ((method_body (real_oid i) name args s_b).1,
     chain_exit auth_context_arg i name args s
       (method_body (real_oid i) name args s_b).2)
  /\ get_current_mode s_b = default (get_current_mode s) (innermost_target i)
  /\ (forall n bt target b,
        i = StubInst n bt target b ->
        single_process_mode (call i name args s).2 = single_process_mode s).
Proof.
  intros Hb Hab Hc Hi Hres Hcb Hbind s_b. unfold s_b. clear s_b.
  assert (Hmain : forall s,
    (hc_test_stub_cb s = None \/ hc_test_stub_cb s = Some CbObserve) ->
    call i name args s =
      ((method_body (real_oid i) name args
          (chain_enter auth_context_arg i name args s)).1,
       chain_exit auth_context_arg i name args s
         (method_body (real_oid i) name args
            (chain_enter auth_context_arg i name args s)).2)
    /\ get_current_mode (chain_enter auth_context_arg i name args s)
       = default (get_current_mode s) (innermost_target i)).
  { clear s Hcb. induction i as [k t r | n bt target b IH]; intros s Hcb.
    - cbn [real_oid] in *. cbn [chain_enter chain_exit innermost_target].
      rewrite (real_call_run real_class binds auth_context_arg method_body
                 none_value k t r name args s Hres Hc Hbind).
      split; [by destruct (method_body _ _ _ _) | reflexivity].
    - cbn [real_oid] in *. specialize (IH Hb Hres Hbind).
      assert (Hlook : look (StubInst n bt target b) name
                      = Ok (Wrapper name target)).
      { by apply (lookup_wrapped real_class n bt target b Super rest name). }
      assert (Hargs : exists auth,
                callargs b name args = Ok auth
                /\ wrapper_ctx auth_context_arg b name args
                   = default default_auth_context auth).
      { destruct b as [k t r | n' bt' target' b'].
        - exists (auth_context_arg k name args). split; [| reflexivity].
          cbn [real_oid] in *.
          by rewrite (callargs_real real_class binds auth_context_arg
                        k t r name args Hres), Hbind.
        - exists None. split; [| reflexivity].
          unfold getcallargs.
          by rewrite (lookup_wrapped real_class n' bt' target' b' Super rest
                        name Hb Hab Hc Hi). }
      destruct Hargs as (auth & Hargs & Hctx).
      rewrite (wrapper_run real_class binds auth_context_arg method_body
                 none_value n bt target b name args s auth
                 Hlook Hcb Hargs Hctx).
      destruct (IH (wrapper_enter auth_context_arg target b name args s))
        as [Hcall Hmode].
      { unfold wrapper_enter. cbn [hc_test_stub_cb set_single_process_mode emit].
        destruct Hcb as [E | E]; rewrite E; [by left | by right]. }
      cbn [chain_enter chain_exit innermost_target].
      rewrite Hcall. split; [reflexivity |].
      rewrite Hmode. by destruct (innermost_target b). }
  destruct (Hmain s Hcb) as [Hcall Hmode].
  split; [exact Hcall |]. split; [exact Hmode |].
  intros n bt target b ->.
  assert (Hlook : look (StubInst n bt target b) name = Ok (Wrapper name target)).
  { by apply (lookup_wrapped real_class n bt target b Super rest name). }
  cbn [call_method]. rewrite Hlook. apply exit_context_restores.
Qed.

(** X12.  The calls of a wrapped operation of a stub that never reach the
    backing method.  When the test hook raises, its exception is the
    outcome, after the hook was called with the backing instance; when the
    hook is unset or returns but the look-up or the binding of the
    arguments on the backing instance fails, that exception is the outcome
    (a TypeError when the arguments do not bind to a real method).  In all
    these cases no authentication context was entered, the method body did
    not run, and the scoped mode override is as before. *)
Theorem stub_call_stopped_early
    (n : nat) (bt : bool) (target : SiloMode) (b : Inst)
    (name : string) (args : Args) (s : State) :
  look (StubInst n bt target b) name = Ok (Wrapper name target) ->
  (forall e,
      hc_test_stub_cb s = Some (CbRaise e) ->
      call (StubInst n bt target b) name args s =
        (Raise e,
         set_single_process_mode (single_process_mode s)
           (emit (EvCb (oid_of b) name) (set_single_process_mode None s))))
  /\ (forall e,
        callargs b name args = Raise e ->
        (hc_test_stub_cb s = None ->
         call (StubInst n bt target b) name args s =
           (Raise e,
            set_single_process_mode (single_process_mode s)
              (set_single_process_mode None s)))
        /\ (hc_test_stub_cb s = Some CbObserve ->
            call (StubInst n bt target b) name args s =
              (Raise e,
               set_single_process_mode (single_process_mode s)
                 (emit (EvCb (oid_of b) name)
                    (set_single_process_mode None s)))))
  /\ (forall k t r,
        b = Real k t r ->
        class_attrs (real_class k) !! name = Some Concrete ->
        binds k name args = false ->
        callargs b name args = Raise TypeError).
Proof.
  intros Hlook. split; [| split].
  - intros e Hcb. cbn [call_method]. rewrite Hlook, exit_context_run, !bind_get.
    cbn [hc_test_stub_cb set_single_process_mode]. rewrite Hcb.
    by rewrite !bind_run_cb_raise.
  - intros e Hargs. split; intros Hcb.
    + cbn [call_method]. rewrite Hlook, exit_context_run, !bind_get.
      cbn [hc_test_stub_cb set_single_process_mode]. rewrite Hcb, Hargs.
      by rewrite !bind_ret_unit.
    + cbn [call_method]. rewrite Hlook, exit_context_run, !bind_get.
      cbn [hc_test_stub_cb set_single_process_mode]. rewrite Hcb, Hargs.
      by rewrite !bind_run_cb_observe.
  - intros k t r -> Hres Hbind.
    by rewrite (callargs_real real_class binds auth_context_arg
                  k t r name args Hres), Hbind.
Qed.

(** X16.  The authentication context around a stubbed call.  For a wrapped
    operation of a stub over a real instance that implements it, with no
    test hook and arguments that bind, and a method body that only adds
    [evs] to the trace: the run adds, in this order, the entry of the
    authentication context (the caller's [auth_context] argument when it
    has one that is not falsy, else the default), the call of the real
    method, which sees the target mode, the body's events and the exit of
    that same context, whether the body returns or raises. *)
Theorem stub_call_in_auth_context
    (n k : nat) (bt t r : bool) (target : SiloMode)
    (name : string) (args : Args) (s : State) (evs : list Event) :
  look (StubInst n bt target (Real k t r)) name = Ok (Wrapper name target) ->
  class_attrs (real_class k) !! name = Some Concrete ->
  name <> "close" ->
  hc_test_stub_cb s = None ->
  binds k name args = true ->
  (forall s0, trace (method_body k name args s0).2 = trace s0 ++ evs) ->
  let ctx := default default_auth_context (auth_context_arg k name args) in
  trace (call (StubInst n bt target (Real k t r)) name args s).2
  = trace s ++ [EvAuthEnter ctx; EvCall k name target] ++ evs ++ [EvAuthExit ctx].
Proof.
  intros Hlook Hres Hc Hcb Hbind Hbody ctx.
  rewrite (wrapped_call_over_real real_class binds auth_context_arg
             method_body none_value n k bt t r target name args s
             Hlook Hres Hc (or_introl Hcb) Hbind).
  unfold stub_unwind, stub_body_state. rewrite Hcb.
  cbn [snd trace emit set_single_process_mode]. rewrite Hbody.
  cbn [trace emit set_single_process_mode]. fold ctx.
  rewrite <- !app_assoc. reflexivity.
Qed.

End StubMethodsCorrect.



Lemma stub_chain_runs_in_innermost_target_witness :
  call_method (fun _ => DatabaseBackedUserService) (fun _ _ _ => true)
    (fun _ _ _ => None) probe_body 0
    (StubInst 2 true CONTROL (StubInst 1 true REGION (Real 0 true false)))
    "get_user" true state0
  = ((probe_body 0 "get_user" true
        (chain_enter (fun _ _ _ => None)
           (StubInst 2 true CONTROL (StubInst 1 true REGION (Real 0 true false)))
           "get_user" true state0)).1,
     chain_exit (fun _ _ _ => None)
       (StubInst 2 true CONTROL (StubInst 1 true REGION (Real 0 true false)))
       "get_user" true state0
       (probe_body 0 "get_user" true
          (chain_enter (fun _ _ _ => None)
             (StubInst 2 true CONTROL (StubInst 1 true REGION (Real 0 true false)))
             "get_user" true state0)).2).
Proof.
  refine (proj1
    (stub_chain_runs_in_innermost_target (fun _ => DatabaseBackedUserService)
       (fun _ _ _ => true) (fun _ _ _ => None) probe_body 0
       (StubInst 2 true CONTROL (StubInst 1 true REGION (Real 0 true false)))
       UserService [] "get_user" true state0
       _ _ _ _ _ (or_introl eq_refl) eq_refl));
    try reflexivity; try discriminate; by vm_compute.
Defined.

Lemma stub_call_stopped_early_witness :
  call_method (fun _ => DatabaseBackedUserService) (fun _ _ (a : bool) => a)
    (fun _ _ _ => None) probe_body 0
    (StubInst 1 true REGION (Real 0 true false)) "get_user" false state0
  = (Raise TypeError,
     set_single_process_mode (single_process_mode state0)
       (set_single_process_mode None state0)).
Proof.
  destruct (stub_call_stopped_early (fun _ => DatabaseBackedUserService)
              (fun _ _ (a : bool) => a) (fun _ _ _ => None) probe_body 0
              1 true REGION (Real 0 true false) "get_user" false state0)
    as (_ & Hargs & Htype).
  - by vm_compute.
  - apply (Hargs TypeError); [| reflexivity].
    apply (Htype 0 true false); [reflexivity | by vm_compute | reflexivity].
Defined.

Lemma stub_call_in_auth_context_witness :
  trace (call_method (fun _ => DatabaseBackedUserService) (fun _ _ _ => true)
           (fun _ _ (a : bool) => if a then Some 7 else None)
           probe_body 0 (StubInst 1 true REGION (Real 0 true false))
           "get_user" false state0).2
  = trace state0
    ++ [EvAuthEnter (default default_auth_context (@None nat));
        EvCall 0 "get_user" REGION]
    ++ [] ++ [EvAuthExit (default default_auth_context (@None nat))].
Proof.
  apply (stub_call_in_auth_context (fun _ => DatabaseBackedUserService)
           (fun _ _ _ => true)
           (fun _ _ (a : bool) => if a then Some 7 else None)
           probe_body 0 1 0 true true false REGION "get_user" false state0 []).
  - by vm_compute.
  - by vm_compute.
  - discriminate.
  - reflexivity.
  - reflexivity.
  - intros s0. unfold probe_body, bind, get, raise. simpl.
    by rewrite app_nil_r.
Defined.
